(** * The news aggregation pipeline of [news_scraper_hybrid.py]

    A shallow embedding of [HybridNewsScraper] and [DeepSeekSummarizer]:
    the provider adapters, the deduplication loop, the keyword categorizer,
    the digest sent to the summarizer and the Markdown report.

    Conventions.
    - A Python [str] is the list of its code points ([pystr]); literals are
      written as UTF-8 text and decoded by [str].
    - The values stored in an article dict are [None] or a [str] ([pyval]):
      that is what both adapters put there.
    - An article is a Python dict, whose order is never observed: a [gmap].
      The taxonomy and the categorized result are dicts that the program
      iterates: insertion-ordered association lists ([odict]).
    - [str.lower] follows Unicode's case tables, which are not part of the
      program: it is a parameter [lower] of the development.
    - The network, the clock, the file system and the chat service are the
      fields of a [world]; what the program does to them is logged as a
      trace of [event]s.  Logging calls and [time.sleep] are left out. *)

From Stdlib Require Import String Ascii.
From stdpp Require Import gmap list sorting.

Set Default Proof Using "Type".
Local Open Scope N_scope.

(** ** Python strings *)

Definition pystr := list N.

(** UTF-8 decoding of a literal: [need] continuation bytes are still
    expected for the code point accumulated in [acc]. *)
Fixpoint utf8_go (bs : list N) (acc : N) (need : nat) : pystr :=
  match bs with
  | [] => []
  | b :: bs' =>
      match need with
      | S n =>
          let acc' := acc * 64 + b `mod` 64 in
          match n with
          | O => acc' :: utf8_go bs' 0 O
          | S _ => utf8_go bs' acc' n
          end
      | O =>
          if b <? 128 then b :: utf8_go bs' 0 O
          else if b <? 224 then utf8_go bs' (b `mod` 32) 1%nat
          else if b <? 240 then utf8_go bs' (b `mod` 16) 2%nat
          else utf8_go bs' (b `mod` 8) 3%nat
      end
  end.

Definition str (s : string) : pystr :=
  utf8_go (N_of_ascii <$> list_ascii_of_string s) 0 O.

(** The newline character, which a literal cannot hold. *)
Definition nl : pystr := [10].

(** [p in s] on strings: [p] occurs in [s] as a contiguous run. *)
Fixpoint is_prefix (p s : pystr) : bool :=
  match p, s with
  | [], _ => true
  | x :: p', y :: s' => (x =? y) && is_prefix p' s'
  | _ :: _, [] => false
  end.

Fixpoint is_infix (p s : pystr) : bool :=
  is_prefix p s ||
  match s with
  | [] => false
  | _ :: s' => is_infix p s'
  end.

(** [str.isspace] for one code point (CPython's [_PyUnicode_IsWhitespace]). *)
Definition is_space (c : N) : bool :=
  ((9 <=? c) && (c <=? 13)) || ((28 <=? c) && (c <=? 32)) ||
  (c =? 133) || (c =? 160) || (c =? 5760) ||
  ((8192 <=? c) && (c <=? 8202)) ||
  (c =? 8232) || (c =? 8233) || (c =? 8239) || (c =? 8287) || (c =? 12288).

Fixpoint lstrip (s : pystr) : pystr :=
  match s with
  | c :: s' => if is_space c then lstrip s' else s
  | [] => []
  end.

Definition rstrip (s : pystr) : pystr := reverse (lstrip (reverse s)).

(** [s.strip()] *)
Definition strip (s : pystr) : pystr := rstrip (lstrip s).

(** [sep.join(parts)] *)
Fixpoint join (sep : pystr) (parts : list pystr) : pystr :=
  match parts with
  | [] => []
  | [p] => p
  | p :: rest => p ++ sep ++ join sep rest
  end.

(** [str(n)] for a non-negative integer. *)
Definition digit (d : N) : N := 48 + d.

Fixpoint decimal_go (fuel : nat) (n : N) (acc : pystr) : pystr :=
  match fuel with
  | O => acc
  | S fuel' =>
      let acc' := digit (n `mod` 10) :: acc in
      if n <? 10 then acc' else decimal_go fuel' (n `div` 10) acc'
  end.

Definition str_of_nat (n : nat) : pystr :=
  decimal_go (S (N.to_nat (N.log2 (N.of_nat n)))) (N.of_nat n) [].

(** ** Paths *)

(** [pathlib] on a POSIX system.  A path is its root (nothing, ["/"], or
    ["//"] for exactly two leading slashes) and its components, from which
    the empty ones and ["."] are dropped; [".."] is kept. *)

(** [s.split('/')] *)
Fixpoint split_slash (s : pystr) : list pystr :=
  match s with
  | [] => [[]]
  | c :: s' =>
      if c =? 47 then [] :: split_slash s'
      else match split_slash s' with
           | p :: ps => (c :: p) :: ps
           | [] => [[c]]
           end
  end.

Definition path_parts (s : pystr) : list pystr :=
  filter (λ p, p ≠ [] ∧ p ≠ str ".") (split_slash s).

Fixpoint leading_slashes (s : pystr) : nat :=
  match s with
  | c :: s' => if c =? 47 then S (leading_slashes s') else O
  | [] => O
  end.

Definition path_root (s : pystr) : pystr :=
  match leading_slashes s with
  | O => []
  | 2%nat => str "//"
  | _ => str "/"
  end.

(** [str(path)]: the path without root and components is ["."]. *)
Definition path_render (root : pystr) (parts : list pystr) : pystr :=
  match root, parts with
  | [], [] => str "."
  | _, _ => root ++ join (str "/") parts
  end.

(** [str(Path(s))] *)
Definition path_str (s : pystr) : pystr :=
  path_render (path_root s) (path_parts s).

(** [str(Path(a) / b)]: a rooted [b] replaces [a]. *)
Definition path_div (a b : pystr) : pystr :=
  match path_root b with
  | [] => path_render (path_root a) (path_parts a ++ path_parts b)
  | _ :: _ => path_str b
  end.

(** ** Python values held by an article *)

Inductive pyval :=
  | PNone
  | PStr (s : pystr).

#[global] Instance pyval_eq_dec : EqDecision pyval.
Proof. solve_decision. Defined.

#[global] Instance pyval_countable : Countable pyval.
Proof.
  refine (inj_countable'
            (λ v, match v with PNone => None | PStr s => Some s end)
            (λ o, match o with None => PNone | Some s => PStr s end) _).
  by intros [].
Defined.

(** Truth value of [v] in an [if]. *)
Definition truthy (v : pyval) : bool :=
  match v with
  | PNone => false
  | PStr [] => false
  | PStr (_ :: _) => true
  end.

(** [f"{v}"] *)
Definition format (v : pyval) : pystr :=
  match v with
  | PNone => str "None"
  | PStr s => s
  end.

(** ** Articles *)

Abbreviation article := (gmap pystr pyval).

(** [d.get(k, dflt)] *)
Definition dict_get (d : article) (k : pystr) (dflt : pyval) : pyval :=
  default dflt (d !! k).

Definition get_url (a : article) : pyval := dict_get a (str "url") (PStr []).

(** ** Deduplication: the loop of [scrape_news] over [all_articles] *)

Definition dedup_step (st : gset pyval * list article) (a : article)
    : gset pyval * list article :=
  let '(seen_urls, unique_articles) := st in
  let url := get_url a in
  if truthy url && bool_decide (url ∉ seen_urls)
  then ({[url]} ∪ seen_urls, unique_articles ++ [a])
  else st.

Definition dedup (all_articles : list article) : list article :=
  (foldl dedup_step (∅, []) all_articles).2.

(** ** Dicts whose order the program observes *)

Abbreviation odict K V := (list (K * V)).

Section odict.
Context {K V : Type} `{EqDecision K}.

(** [d[k]], [None] standing for [KeyError]. *)
Fixpoint od_get (k : K) (d : odict K V) : option V :=
  match d with
  | [] => None
  | (k', v) :: d' => if decide (k = k') then Some v else od_get k d'
  end.

(** [d[k] = v]: an existing key keeps its place, a new one goes last. *)
Fixpoint od_set (k : K) (v : V) (d : odict K V) : odict K V :=
  match d with
  | [] => [(k, v)]
  | (k', v') :: d' =>
      if decide (k = k') then (k, v) :: d' else (k', v') :: od_set k v d'
  end.

Definition od_keys (d : odict K V) : list K := d.*1.
Definition od_values (d : odict K V) : list V := d.*2.
End odict.

(** ** The categorizer *)

Definition FALLBACK : pystr := str "其他".

(** [self.keywords]: category name to keyword list, in configured order.
    A dict holds a key once; [NoDup (od_keys keywords)] is assumed where a
    statement depends on it. *)
Abbreviation taxonomy := (odict pystr (list pystr)).

Section categorizer.
Variable lower : pystr → pystr.
Variable keywords : taxonomy.

(** The [for keyword in keywords] loop of [_match_keywords]. *)
Fixpoint any_keyword_in (text_lower : pystr) (kws : list pystr) : bool :=
  match kws with
  | [] => false
  | keyword :: kws' =>
      if is_infix (lower keyword) text_lower then true
      else any_keyword_in text_lower kws'
  end.

Definition _match_keywords (text category : pystr) : bool :=
  match text, od_get category keywords with
  | [], _ => false
  | _ :: _, None => false
  | _ :: _, Some kws => any_keyword_in (lower text) kws
  end.

(** The text the categorizer looks at: [f"{title} {description}"]. *)
Definition article_text (a : article) : pystr :=
  let title := dict_get a (str "title") (PStr []) in
  let description := dict_get a (str "description") (PStr []) in
  format title ++ str " " ++ format description.

(** The [for category in self.keywords.keys()] loop. *)
Fixpoint first_category (text : pystr) (cats : list pystr) : pystr :=
  match cats with
  | [] => FALLBACK
  | category :: cats' =>
      if _match_keywords text category then category
      else first_category text cats'
  end.

Definition _categorize_article (a : article) : pystr :=
  first_category (article_text a) (od_keys keywords).
End categorizer.

(** ** Exceptions, effects and the outside world *)

Inductive exn :=
  | NewsScraperError (msg : pystr)
  | AttributeError
  | KeyError (k : pystr)
  | OSError
  | UnicodeDecodeError.

Inductive event :=
  | EvTopHeadlines (country category : pystr)   (* GET /v2/top-headlines *)
  | EvSearch (q : pystr)                        (* GET /v2/everything *)
  | EvBuild (source_url : pystr)                (* Source(url).build() *)
  | EvDownload (article_url : pystr)            (* Article(url).download() *)
  | EvChat (prompt : pystr)                     (* chat.completions.create *)
  | EvWrite (path content : pystr).             (* the report file *)

(** A computation: the trace of what it did, then its exception or value. *)
Definition M (A : Type) : Type := list event * (exn + A).

Definition ret {A} (a : A) : M A := ([], inr a).
Definition raise {A} (e : exn) : M A := ([], inl e).
Definition emit (ev : event) : M unit := ([ev], inr tt).

Definition bind {A B} (m : M A) (f : A → M B) : M B :=
  match m with
  | (t, inl e) => (t, inl e)
  | (t, inr a) => let '(t', r) := f a in (t ++ t', r)
  end.

#[global] Arguments bind : simpl never.

Notation "'let*' x ':=' m 'in' k" := (bind m (λ x, k))
  (at level 10, x name, m at level 100, k at level 200,
   format "'[v' 'let*'  x  :=  m  'in' '/' k ']'").

(** [for x in l: acc = body acc x] *)
Fixpoint fold_m {A S} (body : S → A → M S) (acc : S) (l : list A) : M S :=
  match l with
  | [] => ret acc
  | x :: l' => let* acc' := body acc x in fold_m body acc' l'
  end.

(** *** Configuration: the JSON object of [config.json], key by key
    ([None]: the key is absent) *)

Record newsapi_config := {
  nc_fetch_top_headlines : option bool;
  nc_countries : option (list pystr);
  nc_categories : option (list pystr);
  nc_search_by_keywords : option bool;
  nc_days_back : option nat;
  nc_search_language : option pystr;
}.

Record summary_config := {
  sc_min_length : option nat;
  sc_max_length : option nat;
}.

Record config := {
  cfg_keywords : option taxonomy;
  cfg_language : option pystr;
  cfg_use_newsapi : option bool;
  cfg_newsapi_key : option pystr;
  cfg_newsapi_config : option newsapi_config;
  cfg_use_newspaper : option bool;
  cfg_news_sources : option (odict pystr (list pystr));
  cfg_max_articles : option nat;
  cfg_use_deepseek_summary : option bool;
  cfg_deepseek_api_key : option pystr;
  cfg_deepseek_summary_config : option summary_config;
}.

(** What [json.load] returns: the object of the configuration, its
    members typed as the program uses them, or a JSON value that is not an
    object (an array, a string, a number, [true], [false] or [null]). *)
Inductive config_value :=
  | Dict (c : config)
  | NotDict.

(** What [open(path, 'r', encoding='utf-8')] and [json.load] make of the
    configuration file. *)
Inductive config_file :=
  | CfgMissing                  (* [open] raises FileNotFoundError *)
  | CfgUnreadable               (* another OSError: PermissionError,
                                   IsADirectoryError, ... *)
  | CfgUndecodable              (* the bytes are not UTF-8:
                                   UnicodeDecodeError *)
  | CfgMalformed (err : pystr)  (* the text is not JSON: JSONDecodeError,
                                   with its text *)
  | CfgNotObject                (* JSON, but not an object *)
  | CfgObject (c : config).

(** *** What the providers answer *)

(** The ["source"] member of a NewsAPI article. *)
Inductive raw_source :=
  | SrcScalar (v : pyval)
  | SrcObject (d : gmap pystr pyval).

(** One element of the ["articles"] array of a NewsAPI response. *)
Record raw_item := {
  raw_fields : gmap pystr pyval;
  raw_source_member : option raw_source;
}.

(** A parsed [newspaper.Article]; the date is already [strftime]-formatted. *)
Record parsed_article := {
  pa_title : pystr;
  pa_url : pystr;
  pa_publish_date : option pystr;
  pa_text : pystr;
}.

Record world := {
  w_config_file : pystr → config_file;
  w_has_requests : bool;
  w_has_newspaper : bool;
  w_has_openai : bool;
  (** [get_top_headlines(category, country, page_size)], failures being [[]] *)
  w_top_headlines : pystr → pystr → nat → list raw_item;
  (** [search_everything(q, from_date = now - days_back, language)] *)
  w_search : pystr → nat → pystr → list raw_item;
  (** [Source(url).build(); source.article_urls()], [None] when it raises *)
  w_article_urls : pystr → option (list pystr);
  (** [Article(url).download(); article.parse()], [None] when it raises *)
  w_article : pystr → option parsed_article;
  (** the content of the chat completion, [None] when the call raises *)
  w_chat : pystr → option pystr;
  (** [datetime.now()] as ["%Y-%m-%d"] and as ["%Y-%m-%d %H:%M:%S"] *)
  w_today : pystr;
  w_now : pystr;
  (** whether the output directory and the report file can be written *)
  w_writable : pystr → bool;
}.

(** ** [HybridNewsScraper]: construction *)

(** The fields of [self] after [__init__]. *)
Record scraper := {
  s_config : config;
  s_keywords : taxonomy;
  s_language : pystr;
  s_use_newsapi : bool;
  s_newsapi_key : pystr;
  s_newsapi : bool;                      (* [self.newsapi is not None] *)
  s_use_newspaper : bool;
  s_news_sources : odict pystr (list pystr);
  s_max_articles : nat;
  s_newspaper : bool;                    (* [self.newspaper is not None] *)
  s_use_deepseek : bool;
  s_deepseek_api_key : pystr;
  s_deepseek : option summary_config;    (* [self.deepseek.config] *)
}.

Definition nonempty {A} (l : list A) : bool :=
  match l with [] => false | _ :: _ => true end.

(** [_load_config], [self.config_path] being [Path(config_path)].  Only
    [FileNotFoundError] and [JSONDecodeError] are caught and turned into
    [NewsScraperError]; whatever [json.load] returns is returned. *)
Definition _load_config (w : world) (config_path : pystr)
    : M config_value :=
  match w_config_file w (path_str config_path) with
  | CfgObject c => ret (Dict c)
  | CfgNotObject => ret NotDict
  | CfgMissing =>
      raise (NewsScraperError (str "配置文件不存在: " ++ path_str config_path))
  | CfgMalformed e =>
      raise (NewsScraperError (str "配置文件格式错误: " ++ e))
  | CfgUnreadable => raise OSError
  | CfgUndecodable => raise UnicodeDecodeError
  end.

(** [self.config.get]: a value that is not a dict has no [get]. *)
Definition config_dict (v : config_value) : M config :=
  match v with
  | Dict c => ret c
  | NotDict => raise AttributeError
  end.

Definition no_summary_config : summary_config :=
  {| sc_min_length := None; sc_max_length := None |}.

(** [HybridNewsScraper(config_path)].  An integration whose library cannot
    be imported raises inside the [try], which switches its flag off. *)
Definition HybridNewsScraper (w : world) (config_path : pystr) : M scraper :=
  let* loaded := _load_config w config_path in
  let* config := config_dict loaded in
  let use_newsapi := default false (cfg_use_newsapi config) in
  let newsapi_key := default [] (cfg_newsapi_key config) in
  let try_newsapi := use_newsapi && nonempty newsapi_key in
  let use_newspaper := default true (cfg_use_newspaper config) in
  let use_deepseek := default false (cfg_use_deepseek_summary config) in
  let deepseek_api_key := default [] (cfg_deepseek_api_key config) in
  let try_deepseek := use_deepseek && nonempty deepseek_api_key in
  ret {|
    s_config := config;
    s_keywords := default [] (cfg_keywords config);
    s_language := default (str "zh") (cfg_language config);
    s_use_newsapi := if try_newsapi then w_has_requests w else use_newsapi;
    s_newsapi_key := newsapi_key;
    s_newsapi := try_newsapi && w_has_requests w;
    s_use_newspaper := use_newspaper && w_has_newspaper w;
    s_news_sources := default [] (cfg_news_sources config);
    s_max_articles := default 50%nat (cfg_max_articles config);
    s_newspaper := use_newspaper && w_has_newspaper w;
    s_use_deepseek := if try_deepseek then w_has_openai w else use_deepseek;
    s_deepseek_api_key := deepseek_api_key;
    s_deepseek :=
      if try_deepseek && w_has_openai w
      then Some (default no_summary_config (cfg_deepseek_summary_config config))
      else None;
  |}.

(** ** The provider adapters *)

Definition UNKNOWN_DATE : pystr := str "未知".

(** [article.get(k, '')] on a response item. *)
Definition raw_get (item : raw_item) (k : string) : pyval :=
  dict_get (raw_fields item) (str k) (PStr []).

(** The dict that [scrape_from_newsapi] builds from one response item. *)
Definition newsapi_record (region : pystr) (item : raw_item) : M article :=
  let* source :=
    match raw_source_member item with
    | None => ret (PStr (str "NewsAPI"))
    | Some (SrcObject d) => ret (dict_get d (str "name") (PStr (str "NewsAPI")))
    | Some (SrcScalar _) => raise AttributeError
    end in
  let publish_date :=
    match raw_fields item !! str "publishedAt" with
    | Some (PStr (c :: s)) => take 10 (c :: s)
    | _ => UNKNOWN_DATE
    end in
  ret (<[str "title" := raw_get item "title"]>
       (<[str "url" := raw_get item "url"]>
       (<[str "source" := source]>
       (<[str "region" := PStr region]>
       (<[str "publish_date" := PStr publish_date]>
       (<[str "description" := raw_get item "description"]> ∅)))))).

(** [for article in articles: all_articles.append({...})] *)
Definition append_records (region : pystr) (all_articles : list article)
    (articles : list raw_item) : M (list article) :=
  fold_m (λ acc item,
            let* r := newsapi_record region item in ret (acc ++ [r]))
         all_articles articles.

Definition no_newsapi_config : newsapi_config :=
  {| nc_fetch_top_headlines := None; nc_countries := None;
     nc_categories := None; nc_search_by_keywords := None;
     nc_days_back := None; nc_search_language := None |}.

Definition scrape_from_newsapi (w : world) (self : scraper)
    : M (list article) :=
  if negb (s_newsapi self) then ret [] else
  let newsapi_config :=
    default no_newsapi_config (cfg_newsapi_config (s_config self)) in
  let* all_articles :=
    if default true (nc_fetch_top_headlines newsapi_config) then
      let countries := default [str "us"] (nc_countries newsapi_config) in
      let categories :=
        default [str "technology"; str "business"; str "science"]
                (nc_categories newsapi_config) in
      fold_m (λ acc country,
        fold_m (λ acc category,
          let* _ := emit (EvTopHeadlines country category) in
          append_records (str "NewsAPI-" ++ country) acc
            (w_top_headlines w category country (s_max_articles self)))
          acc categories)
        [] countries
    else ret [] in
  if default true (nc_search_by_keywords newsapi_config) then
    let days_back := default 7%nat (nc_days_back newsapi_config) in
    let language := default (str "en") (nc_search_language newsapi_config) in
    fold_m (λ acc '(category, keywords),
      fold_m (λ acc keyword,
        let* _ := emit (EvSearch keyword) in
        append_records (str "NewsAPI-搜索") acc
          (w_search w keyword days_back language))
        acc (take 3 keywords))
      all_articles (s_keywords self)
  else ret all_articles.

(** The dict that [fetch_from_source] builds from one parsed article. *)
Definition newspaper_record (url : pystr) (a : parsed_article) : article :=
  <[str "title" := PStr (pa_title a)]>
  (<[str "url" := PStr (pa_url a)]>
  (<[str "source" := PStr url]>
  (<[str "publish_date" := PStr (default UNKNOWN_DATE (pa_publish_date a))]>
  (<[str "description" :=
       PStr (if nonempty (pa_text a) then take 200 (pa_text a) ++ str "..."
             else [])]> ∅)))).

Definition fetch_from_source (w : world) (url : pystr) (max_articles : nat)
    : M (list article) :=
  let* _ := emit (EvBuild url) in
  match w_article_urls w url with
  | None => ret []
  | Some urls =>
      fold_m (λ articles article_url,
                let* _ := emit (EvDownload article_url) in
                match w_article w article_url with
                | None => ret articles
                | Some a => ret (articles ++ [newspaper_record url a])
                end)
             [] (take max_articles urls)
  end.

Definition scrape_from_newspaper (w : world) (self : scraper)
    : M (list article) :=
  if negb (s_newspaper self) then ret [] else
  fold_m (λ acc '(region, sources),
    fold_m (λ acc source_url,
      let* articles := fetch_from_source w source_url (s_max_articles self) in
      ret (acc ++ (<[str "region" := PStr region]> <$> articles)))
      acc sources)
    [] (s_news_sources self).

(** ** [scrape_news]: fetch, deduplicate, categorize *)

Abbreviation news_data := (odict pystr (list article)).

(** [{category: [] for category in self.keywords.keys()}], then
    [categorized_news["其他"] = []]. *)
Definition empty_buckets (keywords : taxonomy) : news_data :=
  od_set FALLBACK []
    (foldl (λ d category, od_set category [] d) [] (od_keys keywords)).

(** [categorized_news[category].append(article)] *)
Definition bucket_append (category : pystr) (a : article) (d : news_data)
    : M news_data :=
  match od_get category d with
  | Some articles => ret (od_set category (articles ++ [a]) d)
  | None => raise (KeyError category)
  end.

Section pipeline.
Variable lower : pystr → pystr.
Variable w : world.

Definition categorize_all (keywords : taxonomy) (unique_articles : list article)
    : M news_data :=
  fold_m (λ categorized_news a,
            let category := _categorize_article lower keywords a in
            bucket_append category a categorized_news)
         (empty_buckets keywords) unique_articles.

Definition scrape_news (self : scraper) : M news_data :=
  let* from_newsapi :=
    if s_use_newsapi self then scrape_from_newsapi w self else ret [] in
  let* from_newspaper :=
    if s_use_newspaper self then scrape_from_newspaper w self else ret [] in
  let all_articles := from_newsapi ++ from_newspaper in
  categorize_all (s_keywords self) (dedup all_articles).

(** ** [DeepSeekSummarizer] *)

(** [enumerate(l, start)] *)
Fixpoint enumerate {A} (start : nat) (l : list A) : list (nat * A) :=
  match l with
  | [] => []
  | x :: l' => (start, x) :: enumerate (S start) l'
  end.

Definition digest_header (category : pystr) (n : nat) : pystr :=
  nl ++ str "【" ++ category ++ str "类】(" ++ str_of_nat n ++ str "篇)".

Definition digest_entry (idx : nat) (title : pystr) : pystr :=
  str_of_nat idx ++ str ". " ++ title.

(** One round of the inner loop of [_prepare_news_text]; [None.strip()]
    raises. *)
Definition digest_title (text_parts : list pystr) (item : nat * article)
    : M (list pystr) :=
  let '(idx, a) := item in
  match dict_get a (str "title") (PStr []) with
  | PNone => raise AttributeError
  | PStr t =>
      let title := strip t in
      if nonempty title
      then ret (text_parts ++ [digest_entry idx title])
      else ret text_parts
  end.

(** [for idx, article in enumerate(articles[:10], 1)] *)
Definition digest_titles (text_parts : list pystr) (articles : list article)
    : M (list pystr) :=
  fold_m digest_title text_parts (enumerate 1 (take 10 articles)).

(** One round of the outer loop. *)
Definition digest_category (text_parts : list pystr)
    (item : pystr * list article) : M (list pystr) :=
  let '(category, articles) := item in
  if negb (nonempty articles) || bool_decide (category = FALLBACK)
  then ret text_parts
  else digest_titles
         (text_parts ++ [digest_header category (length articles)]) articles.

(** The list [text_parts] at the end of [_prepare_news_text]. *)
Definition digest_parts (nd : news_data) : M (list pystr) :=
  fold_m digest_category [] nd.

Definition _prepare_news_text (nd : news_data) : M pystr :=
  let* text_parts := digest_parts nd in
  ret (join nl text_parts).

Definition summary_prompt (min_length max_length : nat) (news_text : pystr)
    : pystr :=
  str "请基于以下今日新闻标题，生成一段" ++ str_of_nat min_length ++ str "-" ++
  str_of_nat max_length ++ str "字的中文摘要。" ++ nl ++ nl ++
  str "要求：" ++ nl ++
  str "1. 摘要应具有整体感，能够提炼出当日新闻的主要趋势、关注焦点或舆论动向" ++ nl ++
  str "2. 不要机械复述标题，要进行概括与串联，风格自然流畅" ++ nl ++
  str "3. 分析各类新闻的内在联系和整体趋势" ++ nl ++
  str "4. 语言专业但易懂，适合快速阅读" ++ nl ++ nl ++
  str "今日新闻标题：" ++ nl ++ nl ++
  news_text ++ nl ++ nl ++
  str "请生成摘要：".

Definition generate_daily_summary (cfg : summary_config) (nd : news_data)
    : M pystr :=
  let* news_text := _prepare_news_text nd in
  if negb (nonempty (strip news_text)) then ret [] else
  let prompt :=
    summary_prompt (default 300%nat (sc_min_length cfg))
                   (default 500%nat (sc_max_length cfg)) news_text in
  let* _ := emit (EvChat prompt) in
  match w_chat w prompt with
  | Some content => ret (strip content)
  | None => ret []
  end.
End pipeline.

(** ** [generate_markdown_report] *)

Definition SUMMARY_HEADING : pystr := nl ++ str "## 🌟 今日导览摘要" ++ nl ++ nl.
Definition SUMMARY_NOTE : pystr :=
  str "> *由 DeepSeek AI 根据当日新闻自动生成*" ++ nl ++ nl.
Definition RULE : pystr := str "---" ++ nl.
Definition STATS_HEADING : pystr := nl ++ str "## 📊 统计概览" ++ nl.
Definition FOOTER : pystr := str "*报告由新闻抓取工具自动生成*" ++ nl.

Definition category_heading (category : pystr) : pystr :=
  nl ++ str "## 📰 " ++ category ++ nl.

(** [article[k]] *)
Definition dict_item (a : article) (k : string) : M pyval :=
  match a !! str k with
  | Some v => ret v
  | None => raise (KeyError (str k))
  end.

(** The lines appended for one article of a category section. *)
Definition article_lines (idx : nat) (a : article) : M (list pystr) :=
  let* title := dict_item a "title" in
  let* url := dict_item a "url" in
  let* source := dict_item a "source" in
  let* region := dict_item a "region" in
  let* publish_date := dict_item a "publish_date" in
  let description :=
    match a !! str "description" with
    | Some (PStr (c :: s)) =>
        [str "- **摘要**: " ++ take 150 (c :: s) ++ str "..." ++ nl]
    | _ => []
    end in
  ret ([str "### " ++ str_of_nat idx ++ str ". " ++ format title ++ nl;
        str "- **链接**: [" ++ format url ++ str "](" ++ format url ++
          str ")" ++ nl;
        str "- **来源**: " ++ format source ++ nl;
        str "- **区域**: " ++ format region ++ nl;
        str "- **发布日期**: " ++ format publish_date ++ nl]
       ++ description ++ [nl]).

Definition stats_line (category : pystr) (n : nat) : pystr :=
  str "- **" ++ category ++ str "**: " ++ str_of_nat n ++ str " 篇" ++ nl.

(** One round of the loop that lists the non-empty categories. *)
Definition stats_category (content : list pystr) (item : pystr * list article)
    : list pystr :=
  let '(category, articles) := item in
  if nonempty articles
  then content ++ [stats_line category (length articles)]
  else content.

Definition stats_section (nd : news_data) : list pystr :=
  let total_articles := sum_list (length <$> od_values nd) in
  [STATS_HEADING; str "- **总计文章数**: " ++ str_of_nat total_articles ++ nl] ++
  foldl stats_category [] nd ++
  [nl ++ RULE].

(** [for idx, article in enumerate(articles, 1)]: one round. *)
Definition section_article (content : list pystr) (item : nat * article)
    : M (list pystr) :=
  let '(idx, a) := item in
  let* lines := article_lines idx a in
  ret (content ++ lines).

Definition count_line (n : nat) : pystr :=
  str "*共 " ++ str_of_nat n ++ str " 篇新闻*" ++ nl ++ nl.

(** [for category, articles in news_data.items()]: one round. *)
Definition category_section (content : list pystr)
    (item : pystr * list article) : M (list pystr) :=
  let '(category, articles) := item in
  if negb (nonempty articles) then ret content else
  fold_m section_article
         (content ++ [category_heading category; count_line (length articles)])
         (enumerate 1 articles).

Definition category_sections (nd : news_data) : M (list pystr) :=
  fold_m category_section [] nd.

Definition report_foot : list pystr := [nl ++ RULE; FOOTER].

Section report.
Variable w : world.
Variable self : scraper.

Definition sources_used : list pystr :=
  (if s_use_newsapi self then [str "NewsAPI"] else []) ++
  (if s_use_newspaper self then [str "Newspaper3k"] else []) ++
  (if s_use_deepseek self then [str "DeepSeek AI 摘要"] else []).

(** [if self.use_deepseek and self.deepseek: ...; if summary: ...] *)
Definition summary_section (nd : news_data) : M (list pystr) :=
  match s_use_deepseek self, s_deepseek self with
  | true, Some cfg =>
      let* summary := generate_daily_summary w cfg nd in
      if nonempty summary
      then ret [SUMMARY_HEADING; SUMMARY_NOTE; summary ++ nl ++ nl; RULE]
      else ret []
  | _, _ => ret []
  end.

(** The title, the time stamp, the data sources and a rule. *)
Definition report_head : list pystr :=
  [str "# 新闻日报 - " ++ w_today w ++ nl;
   str "> 生成时间: " ++ w_now w ++ nl;
   str "> 数据源: " ++ join (str ", ") sources_used ++ nl;
   RULE].

(** The list [content] just before it is joined and written. *)
Definition report_content (nd : news_data) : M (list pystr) :=
  let* summary := summary_section nd in
  let* sections := category_sections nd in
  ret (report_head ++ summary ++ stats_section nd ++ sections ++ report_foot).

(** [str(Path(output_dir) / f"news_daily_report_{today}.md")] *)
Definition report_path (output_dir : pystr) : pystr :=
  path_div output_dir (str "news_daily_report_" ++ w_today w ++ str ".md").

Definition generate_markdown_report (nd : news_data) (output_dir : pystr)
    : M pystr :=
  if negb (w_writable w (path_str output_dir)) then raise OSError else
  let filepath := report_path output_dir in
  let* content := report_content nd in
  if negb (w_writable w filepath) then raise OSError else
  let* _ := emit (EvWrite filepath (concat content)) in
  ret filepath.
End report.

(** ** [run] and [main] *)

Section program.
Variable lower : pystr → pystr.
Variable w : world.

Definition run (self : scraper) (output_dir : pystr) : M pystr :=
  let* nd := scrape_news lower w self in
  generate_markdown_report w self nd output_dir.

(** The body of [main]'s [try]. *)
Definition main_body : M pystr :=
  let* scraper := HybridNewsScraper w (str "config.json") in
  run scraper (str "output").

(** [main]: its trace and exit status. *)
Definition main : list event * nat :=
  match main_body with
  | (t, inr _) => (t, 0%nat)
  | (t, inl _) => (t, 1%nat)
  end.
End program.

(** ** The deduplication policy, as specified *)

(** The deduplication policy in the specification's words: going through
    the concatenated input, a record is kept when its url is non-empty and
    none of the [earlier] records bears that url. *)
Fixpoint keep_first (earlier l : list article) : list article :=
  match l with
  | [] => []
  | a :: l' =>
      (if truthy (get_url a) && bool_decide (get_url a ∉ get_url <$> earlier)
       then [a] else [])
      ++ keep_first (earlier ++ [a]) l'
  end.

Definition dedup_spec (l : list article) : list article := keep_first [] l.

(** The urls are non-empty and pairwise distinct. *)
Definition unique_urls (l : list article) : Prop :=
  Forall (λ a, truthy (get_url a) = true) l ∧ NoDup (get_url <$> l).

(** Among the records of [l] with the url [u], the first one. *)
Definition first_with_url (u : pyval) (l : list article) : option article :=
  head (filter (λ a, get_url a = u) l).

#[global] Instance unique_urls_dec l : Decision (unique_urls l).
Proof. unfold unique_urls. apply _. Defined.

(** ** The categorization policy, as specified *)

(** [p] occurs in [s] as a substring. *)
Definition occurs_in (p s : pystr) : Prop := ∃ l r, s = l ++ p ++ r.

(** Some keyword of [kws] occurs in [text], case-insensitively. *)
Definition category_matches (lower : pystr → pystr) (kws : list pystr)
    (text : pystr) : Prop :=
  ∃ keyword, keyword ∈ kws ∧ occurs_in (lower keyword) (lower text).

(** ** The digest, as specified *)


(** The title of [a] is a string: absent, it counts as the empty one. *)
Definition has_str_title (a : article) : Prop :=
  dict_get a (str "title") (PStr []) ≠ PNone.

#[global] Instance has_str_title_dec a : Decision (has_str_title a).
Proof. unfold has_str_title. apply _. Defined.

Definition titles_are_str (nd : news_data) : Prop :=
  Forall (λ p, Forall has_str_title p.2) nd.

#[global] Instance titles_are_str_dec nd : Decision (titles_are_str nd).
Proof. unfold titles_are_str. apply _. Defined.


(** A category is in the digest when it has articles and is not the
    fallback. *)
Definition in_digest (p : pystr * list article) : Prop :=
  p.2 ≠ [] ∧ p.1 ≠ FALLBACK.

#[global] Instance in_digest_dec p : Decision (in_digest p).
Proof. unfold in_digest. apply _. Defined.


(** ** The report, as specified *)

(** The keys that the report reads with [article[k]]. *)
Definition REPORT_KEYS : list pystr :=
  [str "title"; str "url"; str "source"; str "region"; str "publish_date"].

Definition has_keys (ks : list pystr) (a : article) : Prop :=
  Forall (λ k, is_Some (a !! k)) ks.

Definition report_ready (nd : news_data) : Prop :=
  Forall (λ p, Forall (has_keys REPORT_KEYS) p.2) nd.

(** The summarizer was reached and answered a non-empty summary. *)
Definition summary_obtained (w : world) (self : scraper) (nd : news_data)
    : Prop :=
  ∃ cfg t summary,
    s_use_deepseek self = true ∧ s_deepseek self = Some cfg ∧
    generate_daily_summary w cfg nd = (t, inr summary) ∧ summary ≠ [].

(** The chat service was asked for a summary, and the call raised or its
    answer was empty or blank. *)
Definition chat_gave_nothing (w : world) (cfg : summary_config)
    (nd : news_data) (prompt : pystr) : Prop :=
  ∃ news_text,
    _prepare_news_text nd = ([], inr news_text) ∧
    strip news_text ≠ [] ∧
    prompt = summary_prompt (default 300%nat (sc_min_length cfg))
                            (default 500%nat (sc_max_length cfg)) news_text ∧
    (w_chat w prompt = None ∨
     ∃ content, w_chat w prompt = Some content ∧ strip content = []).

(** A line of the report other than the heading of the summary section. *)
Definition not_heading (p : pystr) : Prop := p ≠ SUMMARY_HEADING.

(** The keys that [fetch_from_source] sets; ["region"] is added afterwards
    by [scrape_from_newspaper]. *)
Definition CRAWLED_KEYS : list pystr :=
  [str "title"; str "url"; str "source"; str "publish_date"].

(** ** Data for the examples *)

(** [str.lower] on ASCII text. *)
Definition ascii_lower (s : pystr) : pystr :=
  (λ c, if (65 <=? c) && (c <=? 90) then c + 32 else c) <$> s.

(** An article with the six keys that the adapters set. *)
Definition record (title url region description : string) : article :=
  <[str "title" := PStr (str title)]>
  (<[str "url" := PStr (str url)]>
  (<[str "source" := PStr (str "NewsAPI")]>
  (<[str "region" := PStr (str region)]>
  (<[str "publish_date" := PStr (str "2024-05-01")]>
  (<[str "description" := PStr (str description)]> ∅))))).

(** Twelve articles, titled "Story 1" to "Story 12". *)
Definition twelve_stories : list article :=
  (λ n, <[str "title" := PStr (str "Story " ++ str_of_nat n)]>
          (record "" "u" "NewsAPI-us" "")) <$> seq 1 12.

Definition two_categories : taxonomy :=
  [(str "A", [str "x"]); (str "B", [str "y"])].

(** A configuration with both adapters and the summarizer switched on. *)
Definition example_config : config := {|
  cfg_keywords := Some [(str "科技", [str "AI"; str "chip"])];
  cfg_language := Some (str "en");
  cfg_use_newsapi := Some true;
  cfg_newsapi_key := Some (str "newsapi-key");
  cfg_newsapi_config := Some {|
    nc_fetch_top_headlines := Some true;
    nc_countries := Some [str "us"];
    nc_categories := Some [str "technology"];
    nc_search_by_keywords := Some false;
    nc_days_back := None;
    nc_search_language := None |};
  cfg_use_newspaper := Some true;
  cfg_news_sources := Some [(str "Asia", [str "https://paper.example/"])];
  cfg_max_articles := Some 5%nat;
  cfg_use_deepseek_summary := Some true;
  cfg_deepseek_api_key := Some (str "deepseek-key");
  cfg_deepseek_summary_config := None;
|}.

(** A NewsAPI item with the given title and url. *)
Definition headline (title url : string) : raw_item := {|
  raw_fields := <[str "title" := PStr (str title)]>
                (<[str "url" := PStr (str url)]>
                (<[str "publishedAt" := PStr (str "2024-05-01T08:00:00Z")]> ∅));
  raw_source_member := Some (SrcObject {[str "name" := PStr (str "Wire")]});
|}.

(** A world where NewsAPI answers two headlines, the second without a
    title, and the crawled site has one article, without a title either. *)
Definition example_world (cfg : config_file) (chat : pystr → option pystr)
    : world := {|
  w_config_file := λ _, cfg;
  w_has_requests := true;
  w_has_newspaper := true;
  w_has_openai := true;
  w_top_headlines := λ _ _ _,
    [headline "AI chip race" "https://wire.example/1";
     headline "" "https://wire.example/2"];
  w_search := λ _ _ _, [];
  w_article_urls := λ _, Some [str "https://paper.example/a"];
  w_article := λ u, Some {| pa_title := []; pa_url := u;
                            pa_publish_date := None; pa_text := str "Body" |};
  w_chat := chat;
  w_today := str "2024-05-01";
  w_now := str "2024-05-01 08:30:00";
  w_writable := λ _, true;
|}.

(** The scraper that [HybridNewsScraper] builds from [example_config]. *)
Definition example_scraper : scraper := {|
  s_config := example_config;
  s_keywords := [(str "科技", [str "AI"; str "chip"])];
  s_language := str "en";
  s_use_newsapi := true;
  s_newsapi_key := str "newsapi-key";
  s_newsapi := true;
  s_use_newspaper := true;
  s_news_sources := [(str "Asia", [str "https://paper.example/"])];
  s_max_articles := 5%nat;
  s_newspaper := true;
  s_use_deepseek := true;
  s_deepseek_api_key := str "deepseek-key";
  s_deepseek := Some no_summary_config;
|}.

(** The records that the adapters make of the three items. *)
Definition wire_record (title url : string) : article :=
  <[str "title" := PStr (str title)]>
  (<[str "url" := PStr (str url)]>
  (<[str "source" := PStr (str "Wire")]>
  (<[str "region" := PStr (str "NewsAPI-us")]>
  (<[str "publish_date" := PStr (str "2024-05-01")]>
  (<[str "description" := PStr []]> ∅))))).

Definition paper_record : article :=
  <[str "title" := PStr []]>
  (<[str "url" := PStr (str "https://paper.example/a")]>
  (<[str "source" := PStr (str "https://paper.example/")]>
  (<[str "region" := PStr (str "Asia")]>
  (<[str "publish_date" := PStr (str "未知")]>
  (<[str "description" := PStr (str "Body...")]> ∅))))).

(** What [scrape_news] does and returns in [example_world]. *)
Definition example_fetches : list event :=
  [EvTopHeadlines (str "us") (str "technology");
   EvBuild (str "https://paper.example/");
   EvDownload (str "https://paper.example/a")].

Definition example_news : news_data :=
  [(str "科技", [wire_record "AI chip race" "https://wire.example/1"]);
   (FALLBACK, [wire_record "" "https://wire.example/2"; paper_record])].

(** The digest of [example_news] and the prompt made of it. *)
Definition example_digest : pystr :=
  join nl [digest_header (str "科技") 1; digest_entry 1 (str "AI chip race")].

Definition example_prompt : pystr := summary_prompt 300 500 example_digest.

(** A NewsAPI item whose ["title"] is the JSON value [null]. *)
Definition untitled_headline : raw_item := {|
  raw_fields := <[str "title" := PNone]>
                (<[str "description" := PStr (str "AI chip race")]>
                (<[str "url" := PStr (str "https://wire.example/3")]>
                (<[str "publishedAt" := PStr (str "2024-05-01T08:00:00Z")]> ∅)));
  raw_source_member := Some (SrcObject {[str "name" := PStr (str "Wire")]});
|}.

(** A world where NewsAPI answers that one item, the crawled site has
    nothing, and the chat service answers every request. *)
Definition untitled_world : world := {|
  w_config_file := λ _, CfgObject example_config;
  w_has_requests := true;
  w_has_newspaper := true;
  w_has_openai := true;
  w_top_headlines := λ _ _ _, [untitled_headline];
  w_search := λ _ _ _, [];
  w_article_urls := λ _, Some [];
  w_article := λ _, None;
  w_chat := λ _, Some (str "Chips dominate the day.");
  w_today := str "2024-05-01";
  w_now := str "2024-05-01 08:30:00";
  w_writable := λ _, true;
|}.

(** The record made of it, and what [scrape_news] returns there. *)
Definition untitled_record : article :=
  <[str "title" := PNone]>
  (<[str "url" := PStr (str "https://wire.example/3")]>
  (<[str "source" := PStr (str "Wire")]>
  (<[str "region" := PStr (str "NewsAPI-us")]>
  (<[str "publish_date" := PStr (str "2024-05-01")]>
  (<[str "description" := PStr (str "AI chip race")]> ∅))))).

Definition untitled_fetches : list event :=
  [EvTopHeadlines (str "us") (str "technology");
   EvBuild (str "https://paper.example/")].

Definition untitled_news : news_data :=
  [(str "科技", [untitled_record]); (FALLBACK, [])].

(** * Properties *)

(** ** Deduplication *)

Section dedup_facts.
Implicit Types (l earlier : list article) (seen : gset pyval).

(** The loop invariant: [seen_urls] holds the non-empty urls met so far. *)
Lemma dedup_loop l : ∀ earlier seen unique_articles,
  (∀ u, truthy u = true → u ∈ seen ↔ u ∈ get_url <$> earlier) →
  (foldl dedup_step (seen, unique_articles) l).2
  = unique_articles ++ keep_first earlier l.
Proof.
  induction l as [|a l IH]; intros earlier seen uniq Hseen; simpl.
  - by rewrite app_nil_r.
  - destruct (truthy (get_url a)) eqn:Ht; simpl.
    + assert (bool_decide (get_url a ∉ seen)
              = bool_decide (get_url a ∉ get_url <$> earlier)) as ->.
      { apply bool_decide_ext. by rewrite Hseen. }
      case_bool_decide as Hin.
      * rewrite (IH (earlier ++ [a])), <- app_assoc; [done|].
        intros u Hu. rewrite fmap_app, elem_of_app, elem_of_union,
          elem_of_singleton, <- Hseen by done.
        simpl. rewrite list_elem_of_singleton. tauto.
      * rewrite (IH (earlier ++ [a])); [done|].
        intros u Hu. rewrite fmap_app, elem_of_app, <- Hseen by done.
        simpl. rewrite list_elem_of_singleton. split; [tauto|].
        intros [?| ->]; [done|]. by apply Hseen.
    + rewrite (IH (earlier ++ [a])); [done|].
      intros u Hu. rewrite fmap_app, elem_of_app, <- Hseen by done.
      simpl. rewrite list_elem_of_singleton. split; [tauto|].
      intros [?| ->]; [done|]. congruence.
Qed.

Lemma dedup_refines l : dedup l = dedup_spec l.
Proof.
  unfold dedup, dedup_spec. rewrite (dedup_loop l [] ∅ []); [done|].
  intros u _. simpl. rewrite elem_of_nil. set_solver.
Qed.

Lemma keep_first_sublist l : ∀ earlier, keep_first earlier l `sublist_of` l.
Proof.
  induction l as [|a l IH]; intros earlier; simpl; [done|].
  destruct (_ && _); simpl.
  - apply sublist_skip, IH.
  - apply sublist_cons, IH.
Qed.

Lemma keep_first_truthy l : ∀ earlier,
  Forall (λ a, truthy (get_url a) = true) (keep_first earlier l).
Proof.
  induction l as [|a l IH]; intros earlier; simpl; [done|].
  destruct (truthy (get_url a)) eqn:Ht; simpl; [|done].
  case_bool_decide; simpl; [|done]. by constructor.
Qed.

Lemma keep_first_fresh l : ∀ earlier a,
  a ∈ keep_first earlier l → get_url a ∉ get_url <$> earlier.
Proof.
  induction l as [|b l IH]; intros earlier a; simpl.
  - by rewrite elem_of_nil.
  - rewrite elem_of_app. intros [Hin|Hin].
    + destruct (truthy (get_url b)); simpl in Hin;
        [|by apply elem_of_nil in Hin].
      case_bool_decide; [|by apply elem_of_nil in Hin].
      by apply list_elem_of_singleton in Hin as ->.
    + apply IH in Hin. rewrite fmap_app, elem_of_app in Hin. tauto.
Qed.

Lemma keep_first_NoDup l : ∀ earlier, NoDup (get_url <$> keep_first earlier l).
Proof.
  induction l as [|a l IH]; intros earlier; simpl; [constructor|].
  destruct (_ && _); simpl; [|done].
  constructor; [|done].
  intros (b & Hb & Hin)%list_elem_of_fmap.
  apply keep_first_fresh in Hin. apply Hin.
  rewrite fmap_app, elem_of_app, <- Hb. right. simpl. by left.
Qed.

Lemma keep_first_covers l : ∀ earlier a,
  a ∈ l → truthy (get_url a) = true →
  get_url a ∈ get_url <$> earlier ∨
  get_url a ∈ get_url <$> keep_first earlier l.
Proof.
  induction l as [|b l IH]; intros earlier a; [by rewrite elem_of_nil|].
  rewrite elem_of_cons. intros [->|Hin] Ht; simpl.
  - rewrite Ht. simpl. case_bool_decide as Hb; simpl.
    + right. by left.
    + by left.
  - destruct (IH (earlier ++ [b]) a Hin Ht) as [H|H].
    + rewrite fmap_app, elem_of_app in H. destruct H as [H|H]; [by left|].
      simpl in H. apply list_elem_of_singleton in H.
      destruct (decide (get_url b ∈ get_url <$> earlier)) as [Hd|Hd];
        [left; congruence|].
      right. rewrite fmap_app, elem_of_app. left.
      rewrite H in Ht |- *. rewrite Ht, bool_decide_eq_true_2 by done.
      simpl. by left.
    + right. rewrite fmap_app, elem_of_app. by right.
Qed.

Lemma keep_first_head l : ∀ earlier u,
  truthy u = true → u ∉ get_url <$> earlier →
  first_with_url u (keep_first earlier l) = first_with_url u l.
Proof.
  unfold first_with_url.
  induction l as [|a l IH]; intros earlier u Hu Hfresh; simpl; [done|].
  rewrite filter_app, filter_cons.
  destruct (decide (get_url a = u)) as [Heq|Hne].
  - rewrite Heq, Hu, bool_decide_eq_true_2 by done. simpl.
    by rewrite filter_cons_True.
  - assert (filter (λ b, get_url b = u)
              (if truthy (get_url a) &&
                  bool_decide (get_url a ∉ get_url <$> earlier)
               then [a] else []) = []) as ->.
    { destruct (_ && _); [|done]. by rewrite filter_cons_False. }
    simpl. apply IH; [done|].
    rewrite fmap_app, elem_of_app. simpl.
    rewrite list_elem_of_singleton. intros [?|?]; [done|congruence].
Qed.

Lemma keep_first_id l : ∀ earlier,
  unique_urls l → (∀ a, a ∈ l → get_url a ∉ get_url <$> earlier) →
  keep_first earlier l = l.
Proof.
  induction l as [|a l IH]; intros earlier [Ht Hnd] Hfresh; simpl; [done|].
  apply Forall_cons in Ht as [Ha Ht]. simpl in Hnd.
  apply NoDup_cons in Hnd as [Hna Hnd].
  rewrite Ha, bool_decide_eq_true_2 by (apply Hfresh; by left). simpl.
  f_equal. apply IH; [done|].
  intros b Hb. rewrite fmap_app, elem_of_app. simpl.
  rewrite list_elem_of_singleton. intros [Hin|Heq].
  - eapply Hfresh; [by right|done].
  - apply Hna. rewrite <- Heq. by apply list_elem_of_fmap_2.
Qed.
End dedup_facts.

(** C1. Deduplication is first-seen-wins: the output is what the policy
    [dedup_spec] keeps (a record is kept exactly when its url is non-empty
    and no earlier record of the concatenation bears it, whatever its other
    fields); it is a subsequence of the input, so the relative order is
    preserved; every kept record has a url that is present and non-empty;
    no url occurs twice; every non-empty url of the input is still there;
    and for each non-empty url the record kept is the first one of the
    input bearing it. *)
Theorem dedup_first_seen_wins (all_articles : list article) :
  dedup all_articles = dedup_spec all_articles ∧
  dedup all_articles `sublist_of` all_articles ∧
  (∀ a, a ∈ dedup all_articles →
     ∃ c s, a !! str "url" = Some (PStr (c :: s))) ∧
  NoDup (get_url <$> dedup all_articles) ∧
  (∀ a, a ∈ all_articles → truthy (get_url a) = true →
     get_url a ∈ get_url <$> dedup all_articles) ∧
  (∀ u, truthy u = true →
     first_with_url u (dedup all_articles) = first_with_url u all_articles).
Proof.
  rewrite dedup_refines. unfold dedup_spec. split_and!.
  - done.
  - apply keep_first_sublist.
  - intros a Ha.
    pose proof (keep_first_truthy all_articles []) as Ht.
    rewrite Forall_forall in Ht. specialize (Ht a Ha).
    unfold get_url, dict_get in Ht.
    destruct (a !! str "url") as [[|[|c s]]|]; simpl in Ht; try done.
    by exists c, s.
  - apply keep_first_NoDup.
  - intros a Ha Ht.
    destruct (keep_first_covers all_articles [] a Ha Ht) as [Hin|Hin]; [|done].
    by apply elem_of_nil in Hin.
  - intros u Hu. apply keep_first_head; [done|]. simpl. apply not_elem_of_nil.
Qed.

(** The scenario of the specification: adapters returning [{u1, u2}] and
    [{u2, u3}] give [[u1; u2 (first adapter's copy); u3]]. *)
Example dedup_two_adapters :
  dedup ([record "one" "u1" "NewsAPI-us" ""; record "two" "u2" "NewsAPI-us" ""]
         ++ [record "two again" "u2" "Asia" "other"; record "three" "u3" "Asia" ""])
  = [record "one" "u1" "NewsAPI-us" ""; record "two" "u2" "NewsAPI-us" "";
     record "three" "u3" "Asia" ""].
Proof. reflexivity. Qed.

(** C7. Deduplication is idempotent: a sequence whose urls are non-empty
    and pairwise distinct is returned unchanged, and deduplicating the
    output of a deduplication changes nothing. *)
Theorem dedup_idempotent (l : list article) :
  (unique_urls l → dedup l = l) ∧ dedup (dedup l) = dedup l.
Proof.
  assert (∀ l', unique_urls l' → dedup l' = l') as Hid.
  { intros l' Hu. rewrite dedup_refines. apply keep_first_id; [done|].
    intros a _. simpl. apply not_elem_of_nil. }
  split; [apply Hid|]. apply Hid. rewrite dedup_refines. split.
  - apply keep_first_truthy.
  - apply keep_first_NoDup.
Qed.

Lemma dedup_idempotent_witness :
  dedup [record "one" "u1" "NewsAPI-us" ""; record "two" "u2" "Asia" ""]
  = [record "one" "u1" "NewsAPI-us" ""; record "two" "u2" "Asia" ""].
Proof.
  apply (proj1 (dedup_idempotent _)).
  apply (bool_decide_unpack _). by vm_compute.
Defined.

(** ** Ordered dicts *)

Section odict_facts.
Context {K V : Type} `{EqDecision K}.
Implicit Types (d : odict K V) (k : K) (v : V).

Lemma od_get_set_eq d k v : od_get k (od_set k v d) = Some v.
Proof.
  induction d as [|[k' v'] d IH]; simpl.
  - by rewrite decide_True.
  - destruct (decide (k = k')); simpl; [by rewrite decide_True|].
    by rewrite decide_False.
Qed.

Lemma od_get_set_ne d k k' v : k ≠ k' → od_get k' (od_set k v d) = od_get k' d.
Proof.
  intros Hne. induction d as [|[k0 v0] d IH]; simpl.
  - by rewrite decide_False.
  - destruct (decide (k = k0)) as [->|]; simpl.
    + by rewrite !decide_False.
    + by rewrite IH.
Qed.

Lemma od_get_Some_keys d k : is_Some (od_get k d) ↔ k ∈ od_keys d.
Proof.
  unfold od_keys. induction d as [|[k' v'] d IH]; simpl.
  - rewrite elem_of_nil. split; [by intros [? ?]|done].
  - rewrite elem_of_cons. destruct (decide (k = k')) as [->|]; [|tauto].
    split; [by left|by eexists].
Qed.

Lemma od_get_elem d k v : NoDup (od_keys d) → (k, v) ∈ d → od_get k d = Some v.
Proof.
  unfold od_keys. induction d as [|[k' v'] d IH]; simpl.
  - by rewrite elem_of_nil.
  - rewrite NoDup_cons, elem_of_cons. intros [Hk Hnd] [Heq|Hin].
    + injection Heq as -> ->. by rewrite decide_True.
    + rewrite decide_False; [by apply IH|].
      intros ->. apply Hk. by apply (list_elem_of_fmap_2 fst _ (k', v)).
Qed.

Lemma od_keys_set_in d k v : k ∈ od_keys d → od_keys (od_set k v d) = od_keys d.
Proof.
  unfold od_keys. induction d as [|[k' v'] d IH]; simpl.
  - by intros ?%elem_of_nil.
  - intros Hin. destruct (decide (k = k')) as [->|Hne]; simpl; [done|].
    f_equal. apply IH. apply elem_of_cons in Hin as [?|?]; done.
Qed.

Lemma od_keys_set_notin d k v :
  k ∉ od_keys d → od_keys (od_set k v d) = od_keys d ++ [k].
Proof.
  unfold od_keys. induction d as [|[k' v'] d IH]; simpl; [done|].
  rewrite not_elem_of_cons. intros [Hne Hin].
  rewrite decide_False by done. simpl. f_equal. by apply IH.
Qed.

Lemma od_keys_set_NoDup d k v :
  NoDup (od_keys d) → NoDup (od_keys (od_set k v d)).
Proof.
  intros Hnd. destruct (decide (k ∈ od_keys d)) as [Hin|Hin].
  - by rewrite od_keys_set_in.
  - rewrite od_keys_set_notin by done.
    apply NoDup_app. split_and!; [done| |apply NoDup_singleton].
    by intros x Hx ->%list_elem_of_singleton.
Qed.

Lemma od_keys_set_elem d k k' v :
  k' ∈ od_keys (od_set k v d) ↔ k' = k ∨ k' ∈ od_keys d.
Proof.
  destruct (decide (k ∈ od_keys d)) as [Hin|Hin].
  - rewrite od_keys_set_in by done. split; [tauto|]. by intros [->|?].
  - rewrite od_keys_set_notin, elem_of_app, list_elem_of_singleton by done.
    tauto.
Qed.
End odict_facts.

(** ** The categorizer *)

Lemma is_prefix_spec p s : is_prefix p s = true ↔ ∃ r, s = p ++ r.
Proof.
  revert s. induction p as [|x p IH]; intros [|y s]; simpl.
  - split; [by exists []|done].
  - split; [by eexists|done].
  - split; [done|by intros [? ?]].
  - rewrite andb_true_iff, N.eqb_eq, IH. split.
    + intros [-> [r ->]]. by exists r.
    + intros [r [= -> ->]]. eauto.
Qed.

Lemma is_infix_spec p s : is_infix p s = true ↔ occurs_in p s.
Proof.
  unfold occurs_in. induction s as [|y s IH]; simpl.
  - rewrite orb_false_r, is_prefix_spec. split.
    + intros [r Hr]. by exists [], r.
    + intros ([|] & r & Hr); [by exists r|done].
  - rewrite orb_true_iff, is_prefix_spec, IH. split.
    + intros [[r Hr]|(l & r & ->)]; [by exists [], r|by exists (y :: l), r].
    + intros ([|z l] & r & Hr); [left; by exists r|].
      right. injection Hr as -> ->. by exists l, r.
Qed.

Section categorizer_facts.
Variable lower : pystr → pystr.
Variable keywords : taxonomy.

Lemma any_keyword_in_spec text_lower kws :
  any_keyword_in lower text_lower kws = true
  ↔ ∃ keyword, keyword ∈ kws ∧ occurs_in (lower keyword) text_lower.
Proof.
  induction kws as [|k kws IH]; simpl.
  - split; [done|]. by intros (? & ?%elem_of_nil & _).
  - destruct (is_infix (lower k) text_lower) eqn:Hk.
    + split; [|done]. intros _. exists k. split; [by left|].
      by apply is_infix_spec.
    + rewrite IH. split.
      * intros (k' & ? & ?). exists k'. split; [by right|done].
      * intros (k' & [->|?]%elem_of_cons & Hocc); [|by exists k'].
        apply is_infix_spec in Hocc. congruence.
Qed.

Lemma _match_keywords_spec text category kws :
  text ≠ [] → od_get category keywords = Some kws →
  _match_keywords lower keywords text category = true
  ↔ category_matches lower kws text.
Proof.
  intros Htext Hget. unfold _match_keywords, category_matches.
  rewrite Hget. destruct text; [done|]. apply any_keyword_in_spec.
Qed.

Lemma first_category_skip text cats1 cats2 :
  (∀ c, c ∈ cats1 → _match_keywords lower keywords text c = false) →
  first_category lower keywords text (cats1 ++ cats2)
  = first_category lower keywords text cats2.
Proof.
  induction cats1 as [|c cats1 IH]; intros Hno; simpl; [done|].
  rewrite Hno by (by left). apply IH. intros c' ?. apply Hno. by right.
Qed.

Lemma first_category_in text cats :
  first_category lower keywords text cats ∈ cats ++ [FALLBACK].
Proof.
  induction cats as [|c cats IH]; simpl.
  - by left.
  - destruct (_match_keywords _ _ _ _); [by left|by right].
Qed.

Lemma article_text_str (a : article) title description :
  dict_get a (str "title") (PStr []) = PStr title →
  dict_get a (str "description") (PStr []) = PStr description →
  article_text a = title ++ str " " ++ description.
Proof. unfold article_text. by intros -> ->. Qed.
End categorizer_facts.

(** C2. Categorization returns the first matching category of the
    taxonomy.  The text examined is the title, one space and the snippet,
    in that order; for a record whose title and snippet are strings (an
    absent one counting as empty), the category returned is the first one,
    in the configured order, that has a keyword whose lower-cased form
    occurs in the lower-cased text, whatever later categories match; when
    no category has one, it is the fallback. *)
Theorem categorize_first_match (lower : pystr → pystr) (keywords : taxonomy)
    (a : article) (title description : pystr) :
  NoDup (od_keys keywords) →
  dict_get a (str "title") (PStr []) = PStr title →
  dict_get a (str "description") (PStr []) = PStr description →
  let text := title ++ str " " ++ description in
  (∀ earlier category kws later,
     keywords = earlier ++ (category, kws) :: later →
     category_matches lower kws text →
     (∀ c' kws', (c', kws') ∈ earlier → ¬ category_matches lower kws' text) →
     _categorize_article lower keywords a = category) ∧
  ((∀ c kws, (c, kws) ∈ keywords → ¬ category_matches lower kws text) →
   _categorize_article lower keywords a = FALLBACK).
Proof.
  intros Hnd Ht Hd text. unfold _categorize_article.
  rewrite (article_text_str a title description) by done. fold text.
  assert (text ≠ []) as Htext by (unfold text; by destruct title).
  assert (∀ part c, (∀ kws, (c, kws) ∈ part → (c, kws) ∈ keywords) →
            (∀ kws, (c, kws) ∈ part → ¬ category_matches lower kws text) →
            c ∈ od_keys part →
            _match_keywords lower keywords text c = false) as Hmiss.
  { intros part c Hsub Hno ([c' kws] & -> & Hin)%list_elem_of_fmap.
    simpl in *. apply not_true_is_false.
    rewrite (_match_keywords_spec lower keywords text c' kws);
      [by apply Hno|done|].
    apply od_get_elem; [done|]. by apply Hsub. }
  split.
  - intros earlier category kws later -> Hhit Hno.
    unfold od_keys. rewrite fmap_app, fmap_cons. simpl.
    rewrite first_category_skip.
    + simpl.
      assert (od_get category (earlier ++ (category, kws) :: later) = Some kws)
        as Hget.
      { apply od_get_elem; [done|]. apply elem_of_app. right. by left. }
      by rewrite (proj2 (_match_keywords_spec lower _ text category kws
                           Htext Hget)).
    + intros c Hc. apply (Hmiss earlier); [|eauto|done].
      intros kws' ?. apply elem_of_app. by left.
  - intros Hno.
    rewrite <- (app_nil_r (od_keys keywords)), first_category_skip; [done|].
    intros c Hc. apply (Hmiss keywords); eauto.
Qed.

(** The priority scenario of the specification: with taxonomy order
    [[A; B]], [A] having keyword "x" and [B] keyword "y", an article whose
    title contains both is assigned to [A]. *)
Lemma categorize_first_match_witness :
  _categorize_article ascii_lower two_categories
    (record "x and y" "u1" "NewsAPI-us" "") = str "A".
Proof.
  refine (proj1 (categorize_first_match ascii_lower two_categories
                   (record "x and y" "u1" "NewsAPI-us" "") (str "x and y") []
                   _ _ _)
            [] (str "A") [str "x"] [(str "B", [str "y"])] _ _ _).
  - apply (bool_decide_unpack _). by vm_compute.
  - by vm_compute.
  - by vm_compute.
  - reflexivity.
  - exists (str "x"). split; [by left|]. apply is_infix_spec. by vm_compute.
  - intros c' kws' Hin. by apply elem_of_nil in Hin.
Defined.

(** C2, as the claim words it: were the text the plain concatenation of
    title and snippet, the keyword "bc" would occur in it ("ab" followed by
    "cd"), and its category, the only one, would be returned; the code
    joins the two with a space and returns the fallback. *)
Lemma categorize_not_plain_concatenation :
  let a := record "ab" "u1" "NewsAPI-us" "cd" in
  let keywords := [(str "A", [str "bc"])] in
  dict_get a (str "title") (PStr []) = PStr (str "ab") ∧
  dict_get a (str "description") (PStr []) = PStr (str "cd") ∧
  category_matches ascii_lower [str "bc"] (str "ab" ++ str "cd") ∧
  _categorize_article ascii_lower keywords a = FALLBACK ∧
  FALLBACK ≠ str "A".
Proof.
  split_and!; try by vm_compute.
  exists (str "bc"). split; [by left|]. apply is_infix_spec. by vm_compute.
Qed.

(** C3. Categorization is total: every article gets exactly one category
    name, and that name is a category of the taxonomy or the fallback. *)
Theorem categorize_total (lower : pystr → pystr) (keywords : taxonomy)
    (a : article) :
  exists! category,
    _categorize_article lower keywords a = category ∧
    (category ∈ od_keys keywords ∨ category = FALLBACK).
Proof.
  exists (_categorize_article lower keywords a). split.
  - split; [done|]. unfold _categorize_article.
    pose proof (first_category_in lower keywords
                  (article_text a) (od_keys keywords)) as Hin.
    rewrite elem_of_app, list_elem_of_singleton in Hin. done.
  - by intros c [-> _].
Qed.

(** The scenario of the specification: taxonomy
    [{"Tech": ["ai"], "Sports": ["football"]}]. *)
Example categorize_scenario :
  let keywords := [(str "Tech", [str "ai"]); (str "Sports", [str "football"])] in
  _categorize_article ascii_lower keywords
    (record "AI breakthrough" "u1" "NewsAPI-us" "") = str "Tech" ∧
  _categorize_article ascii_lower keywords
    (record "no match" "u2" "NewsAPI-us" "") = FALLBACK.
Proof. by vm_compute. Qed.

(** ** The effect monad *)

Lemma bind_ret_l {A B} (a : A) (f : A → M B) : bind (ret a) f = f a.
Proof. unfold bind, ret. by destruct (f a). Qed.

Lemma bind_pure {A B} (a : A) (f : A → M B) : bind ([], inr a) f = f a.
Proof. apply bind_ret_l. Qed.

(** ** Categorizing the deduplicated records *)

Lemma od_values_set_perm {A} (d : odict pystr (list A)) c b a :
  od_get c d = Some b →
  concat (od_values (od_set c (b ++ [a]) d)) ≡ₚ concat (od_values d) ++ [a].
Proof.
  unfold od_values. induction d as [|[c' b'] d IH]; simpl; [done|].
  destruct (decide (c = c')) as [->|Hne]; simpl.
  - intros [= ->]. rewrite <- !app_assoc. apply Permutation_app_head.
    apply Permutation_app_comm.
  - intros Hget. rewrite IH by done. by rewrite app_assoc.
Qed.

Lemma empty_buckets_loop (cats : list pystr) : ∀ d : news_data,
  NoDup (od_keys d) → (∀ c, c ∈ od_keys d → od_get c d = Some []) →
  let d' := foldl (λ d category, od_set category [] d) d cats in
  NoDup (od_keys d') ∧
  (∀ c, c ∈ od_keys d' ↔ c ∈ od_keys d ∨ c ∈ cats) ∧
  (∀ c, c ∈ od_keys d' → od_get c d' = Some []).
Proof.
  induction cats as [|c0 cats IH]; intros d Hnd Hempty; simpl.
  - split_and!; [done| |done]. intros c. rewrite elem_of_nil. tauto.
  - destruct (IH (od_set c0 [] d)) as (Hnd' & Hkeys & Hempty').
    + by apply od_keys_set_NoDup.
    + intros c Hc. destruct (decide (c0 = c)) as [->|Hne].
      * apply od_get_set_eq.
      * rewrite od_get_set_ne by done. apply Hempty.
        apply od_keys_set_elem in Hc as [?|?]; [congruence|done].
    + split_and!; [done| |done].
      intros c. rewrite Hkeys, od_keys_set_elem, elem_of_cons. tauto.
Qed.

Lemma empty_buckets_spec (keywords : taxonomy) :
  NoDup (od_keys (empty_buckets keywords)) ∧
  (∀ c, c ∈ od_keys (empty_buckets keywords)
        ↔ c ∈ od_keys keywords ∨ c = FALLBACK) ∧
  (∀ c, c ∈ od_keys (empty_buckets keywords) →
        od_get c (empty_buckets keywords) = Some []).
Proof.
  unfold empty_buckets.
  destruct (empty_buckets_loop (od_keys keywords) [])
    as (Hnd & Hkeys & Hempty); [constructor|by intros c ?%elem_of_nil|].
  simpl in *. split_and!.
  - by apply od_keys_set_NoDup.
  - intros c. rewrite od_keys_set_elem, Hkeys. unfold od_keys at 2. simpl.
    rewrite elem_of_nil. tauto.
  - intros c Hc. destruct (decide (FALLBACK = c)) as [->|Hne].
    + apply od_get_set_eq.
    + rewrite od_get_set_ne by done. apply Hempty.
      apply od_keys_set_elem in Hc as [?|?]; [congruence|done].
Qed.

Lemma empty_buckets_values (keywords : taxonomy) :
  concat (od_values (empty_buckets keywords)) = [].
Proof.
  destruct (empty_buckets_spec keywords) as (Hnd & _ & Hempty).
  assert (∀ d : news_data,
            (∀ c b, (c, b) ∈ d → b = []) → concat (od_values d) = [])
    as Hnil.
  { unfold od_values. induction d as [|[c b] d IH]; intros Hd; [done|].
    simpl. rewrite (Hd c b) by (by left). simpl. apply IH.
    intros c' b' ?. apply (Hd c'). by right. }
  apply Hnil. intros c b Hin.
  pose proof (od_get_elem _ _ _ Hnd Hin) as Hget.
  rewrite Hempty in Hget; [congruence|].
  apply od_get_Some_keys. eauto.
Qed.

(** In the usual configuration the fallback comes last. *)
Lemma empty_buckets_keys (keywords : taxonomy) :
  NoDup (od_keys keywords) → FALLBACK ∉ od_keys keywords →
  od_keys (empty_buckets keywords) = od_keys keywords ++ [FALLBACK].
Proof.
  intros Hnd Hfb. unfold empty_buckets.
  assert (∀ cats (d : news_data),
            NoDup (od_keys d ++ cats) →
            od_keys (foldl (λ d category, od_set category [] d) d cats)
            = od_keys d ++ cats) as Hloop.
  { induction cats as [|c cats IH]; intros d Hd; simpl.
    - by rewrite app_nil_r.
    - apply NoDup_app in Hd as Hd'. destruct Hd' as (_ & Hdisj & _).
      rewrite IH; rewrite od_keys_set_notin.
      + by rewrite <- app_assoc.
      + intros Hin. apply (Hdisj c Hin). by left.
      + by rewrite <- app_assoc.
      + intros Hin. apply (Hdisj c Hin). by left. }
  rewrite od_keys_set_notin; rewrite Hloop; try done.
Qed.

Section categorize_all_facts.
Variable lower : pystr → pystr.
Variable keywords : taxonomy.

Let cat := _categorize_article lower keywords.

Lemma categorize_all_loop (l : list article) : ∀ d : news_data,
  (∀ a, cat a ∈ od_keys d) →
  ∃ d', fold_m (λ categorized_news a, bucket_append (cat a) a categorized_news)
               d l = ([], inr d') ∧
        od_keys d' = od_keys d ∧
        (∀ c b, od_get c d = Some b →
                od_get c d' = Some (b ++ filter (λ a, cat a = c) l)) ∧
        concat (od_values d') ≡ₚ concat (od_values d) ++ l.
Proof.
  induction l as [|a l IH]; intros d Hcat; simpl.
  - exists d. split_and!; [done|done| |by rewrite app_nil_r].
    intros c b ->. by rewrite app_nil_r.
  - unfold bucket_append at 1.
    destruct (proj2 (od_get_Some_keys d (cat a)) (Hcat a)) as [b Hb].
    rewrite Hb, bind_ret_l.
    destruct (IH (od_set (cat a) (b ++ [a]) d)) as (d' & Hrun & Hk & Hg & Hp).
    { intros a'. rewrite od_keys_set_in; [apply Hcat|apply Hcat]. }
    exists d'. split_and!; [done| | |].
    + rewrite Hk. apply od_keys_set_in, Hcat.
    + intros c b' Hc. rewrite filter_cons.
      destruct (decide (cat a = c)) as [<-|Hne].
      * rewrite (Hg (cat a) (b ++ [a])) by apply od_get_set_eq.
        rewrite <- app_assoc. simpl. congruence.
      * apply Hg. by rewrite od_get_set_ne.
    + rewrite Hp, (od_values_set_perm d (cat a) b a Hb), <- app_assoc. done.
Qed.
End categorize_all_facts.

Lemma categorize_all_values (lower : pystr → pystr) (keywords : taxonomy)
    (unique_articles : list article) :
  ∃ result,
    categorize_all lower keywords unique_articles = ([], inr result) ∧
    concat (od_values result) ≡ₚ unique_articles.
Proof.
  destruct (empty_buckets_spec keywords) as (_ & Hkeys & _).
  destruct (categorize_all_loop lower keywords unique_articles
              (empty_buckets keywords)) as (result & Hrun & _ & _ & Hp).
  { intros a. apply Hkeys.
    pose proof (first_category_in lower keywords
                  (article_text a) (od_keys keywords)) as Hin.
    by rewrite elem_of_app, list_elem_of_singleton in Hin. }
  exists result. split; [done|]. by rewrite Hp, empty_buckets_values.
Qed.

(** C4. The categorized result is a partition of the deduplicated records:
    categorization of any sequence succeeds; the keys of the result are the
    categories of the taxonomy and the fallback, each once; the sequence
    under a key holds the records categorized to it, in the order of the
    input; every record is in the sequence of its own category and in no
    other; and all sequences together are a rearrangement of the input. *)
Theorem categorized_result_partition (lower : pystr → pystr)
    (keywords : taxonomy) (unique_articles : list article) :
  ∃ result,
    categorize_all lower keywords unique_articles = ([], inr result) ∧
    NoDup (od_keys result) ∧
    (∀ c, c ∈ od_keys result ↔ c ∈ od_keys keywords ∨ c = FALLBACK) ∧
    (∀ c, c ∈ od_keys result →
       od_get c result
       = Some (filter (λ a, _categorize_article lower keywords a = c)
                      unique_articles)) ∧
    (∀ a c articles, a ∈ unique_articles → od_get c result = Some articles →
       (a ∈ articles ↔ _categorize_article lower keywords a = c)) ∧
    concat (od_values result) ≡ₚ unique_articles.
Proof.
  destruct (empty_buckets_spec keywords) as (Hnd & Hkeys & Hempty).
  destruct (categorize_all_loop lower keywords unique_articles
              (empty_buckets keywords)) as (result & Hrun & Hk & Hg & Hp).
  { intros a. apply Hkeys.
    pose proof (first_category_in lower keywords
                  (article_text a) (od_keys keywords)) as Hin.
    by rewrite elem_of_app, list_elem_of_singleton in Hin. }
  assert (∀ c, c ∈ od_keys result →
            od_get c result
            = Some (filter (λ a, _categorize_article lower keywords a = c)
                           unique_articles)) as Hbuckets.
  { intros c Hc. rewrite Hk in Hc. by rewrite (Hg c [] (Hempty c Hc)). }
  exists result. split_and!.
  - done.
  - by rewrite Hk.
  - intros c. by rewrite Hk.
  - done.
  - intros a c articles Ha Hget.
    rewrite Hbuckets in Hget by (apply od_get_Some_keys; eauto).
    injection Hget as <-. rewrite list_elem_of_filter. tauto.
  - by rewrite Hp, empty_buckets_values.
Qed.

(** ** The adapters and the whole run *)

Example example_scraper_built chat :
  HybridNewsScraper (example_world (CfgObject example_config) chat)
    (str "config.json") = ([], inr example_scraper).
Proof. reflexivity. Qed.

(** C5. Neither adapter discards a record for its title: here NewsAPI
    returns a headline whose title is the empty string and the crawled
    article has an empty title as well; both records leave their adapter,
    survive the deduplication and are categorized, under the fallback. *)
Theorem adapters_keep_empty_titles (chat : pystr → option pystr) :
  let w := example_world (CfgObject example_config) chat in
  scrape_from_newsapi w example_scraper
  = ([EvTopHeadlines (str "us") (str "technology")],
     inr [wire_record "AI chip race" "https://wire.example/1";
          wire_record "" "https://wire.example/2"]) ∧
  scrape_from_newspaper w example_scraper
  = ([EvBuild (str "https://paper.example/");
      EvDownload (str "https://paper.example/a")],
     inr [paper_record]) ∧
  scrape_news ascii_lower w example_scraper
  = ([EvTopHeadlines (str "us") (str "technology");
      EvBuild (str "https://paper.example/");
      EvDownload (str "https://paper.example/a")],
     inr [(str "科技", [wire_record "AI chip race" "https://wire.example/1"]);
          (FALLBACK, [wire_record "" "https://wire.example/2"; paper_record])]) ∧
  wire_record "" "https://wire.example/2" !! str "title" = Some (PStr []) ∧
  paper_record !! str "title" = Some (PStr []).
Proof. split_and!; reflexivity. Qed.

(** ** The configuration file *)

Example path_str_examples :
  path_str (str "config.json") = str "config.json" ∧
  path_str (str "./conf//config.json") = str "conf/config.json" ∧
  path_str (str "../config.json") = str "../config.json" ∧
  path_str (str "//etc/") = str "//etc" ∧
  path_str (str "///etc") = str "/etc" ∧
  path_str [] = str ".".
Proof. split_and!; by vm_compute. Qed.

(** Whatever is wrong with the configuration file, nothing is fetched,
    asked of the summarizer or written, and [main] returns 1.  But only a
    missing file and a text that is not JSON give the [NewsScraperError]
    with its message: a file that cannot be read or is not UTF-8 lets the
    exception of [open] or [json.load] through, and a JSON value that is
    not an object is returned and fails at the first [self.config.get]. *)
Lemma config_file_outcomes (lower : pystr → pystr) (w : world) :
  match w_config_file w (str "config.json") with
  | CfgMissing =>
      main_body lower w
      = ([], inl (NewsScraperError (str "配置文件不存在: config.json")))
  | CfgMalformed err =>
      main_body lower w
      = ([], inl (NewsScraperError (str "配置文件格式错误: " ++ err)))
  | CfgUnreadable => main_body lower w = ([], inl OSError)
  | CfgUndecodable => main_body lower w = ([], inl UnicodeDecodeError)
  | CfgNotObject => main_body lower w = ([], inl AttributeError)
  | CfgObject c =>
      ∃ self, HybridNewsScraper w (str "config.json") = ([], inr self) ∧
              s_config self = c
  end ∧
  ((∀ c, w_config_file w (str "config.json") ≠ CfgObject c) →
   main lower w = ([], 1%nat)).
Proof.
  unfold main, main_body, HybridNewsScraper, _load_config.
  change (path_str (str "config.json")) with (str "config.json").
  destruct (w_config_file w (str "config.json")) as [| | |err| |c];
    (split; [|try (intros _; reflexivity)]); try reflexivity.
  - by eexists.
  - intros Hc. by destruct (Hc c).
Qed.

(** C8. Not every malformed configuration file gives the descriptive
    error.  A [config.json] whose bytes are not UTF-8 makes the constructor
    raise [UnicodeDecodeError], and one that holds the JSON value [[]]
    makes it raise [AttributeError]: neither is caught by [_load_config],
    so no [NewsScraperError] with its message is raised.  The run does stop
    before any fetch and without a report, and [main] returns 1. *)
Theorem malformed_config_is_not_wrapped :
  let not_utf8 := example_world CfgUndecodable (λ _, None) in
  let not_object := example_world CfgNotObject (λ _, None) in
  _load_config not_utf8 (str "config.json") = ([], inl UnicodeDecodeError) ∧
  HybridNewsScraper not_utf8 (str "config.json")
  = ([], inl UnicodeDecodeError) ∧
  main ascii_lower not_utf8 = ([], 1%nat) ∧
  _load_config not_object (str "config.json") = ([], inr NotDict) ∧
  HybridNewsScraper not_object (str "config.json")
  = ([], inl AttributeError) ∧
  main ascii_lower not_object = ([], 1%nat).
Proof. split_and!; by vm_compute. Qed.

(** The two cases that [_load_config] catches. *)
Example config_missing_or_not_json :
  HybridNewsScraper (example_world CfgMissing (λ _, None)) (str "./config.json")
  = ([], inl (NewsScraperError (str "配置文件不存在: config.json"))) ∧
  HybridNewsScraper
    (example_world (CfgMalformed (str "Expecting value: line 1 column 1 (char 0)"))
                   (λ _, None))
    (str "config.json")
  = ([], inl (NewsScraperError
               (str "配置文件格式错误: Expecting value: line 1 column 1 (char 0)"))).
Proof. split; by vm_compute. Qed.

(** ** The digest for the summarizer *)



Lemma nonempty_true {A} (l : list A) : nonempty l = true ↔ l ≠ [].
Proof. by destruct l. Qed.





Lemma excluded_skipped (c : pystr) (arts : list article) :
  ¬ in_digest (c, arts) →
  negb (nonempty arts) || bool_decide (c = FALLBACK) = true.
Proof.
  unfold in_digest. simpl. intros Hout.
  destruct arts; [done|]. simpl. apply bool_decide_eq_true.
  destruct (decide (c = FALLBACK)); [done|]. exfalso. by apply Hout.
Qed.


(** The excluded categories play no part, whatever their articles. *)
Lemma digest_parts_filter_loop (nd : news_data) : ∀ text_parts : list pystr,
  fold_m digest_category text_parts nd
  = fold_m digest_category text_parts (filter in_digest nd).
Proof.
  induction nd as [|[c arts] nd IH]; intros parts; [done|].
  rewrite filter_cons. destruct (decide (in_digest (c, arts))) as [Hin|Hout].
  - cbn [fold_m]. destruct (digest_category parts (c, arts)) as [t [e|parts']];
      [done|].
    unfold bind. by rewrite IH.
  - cbn [fold_m]. unfold digest_category at 1.
    rewrite (excluded_skipped c arts Hout). by rewrite bind_ret_l.
Qed.

Lemma digest_parts_filter (nd : news_data) :
  digest_parts nd = digest_parts (filter in_digest nd).
Proof. apply digest_parts_filter_loop. Qed.



(** Of the twelve stories, the digest lists the first ten. *)
Example digest_of_twelve :
  digest_parts [(str "科技", twelve_stories); (FALLBACK, twelve_stories)]
  = ([], inr (digest_header (str "科技") 12 ::
              ((λ n, str_of_nat n ++ str ". Story " ++ str_of_nat n) <$> seq 1 10))).
Proof. by vm_compute. Qed.

Lemma lstrip_blank (t : pystr) : forallb is_space t = true → lstrip t = [].
Proof.
  induction t as [|c t IH]; simpl; [done|].
  intros [Hc Ht]%andb_true_iff. rewrite Hc. by apply IH.
Qed.

Lemma strip_blank (t : pystr) : forallb is_space t = true → strip t = [].
Proof. intros Ht. unfold strip. by rewrite lstrip_blank. Qed.

Lemma filter_in_digest_nil (nd : news_data) :
  (∀ c articles, (c, articles) ∈ nd → c = FALLBACK ∨ articles = []) →
  filter in_digest nd = [].
Proof.
  induction nd as [|[c arts] nd IH]; intros Hnd; [done|].
  rewrite filter_cons, decide_False.
  - apply IH. intros c' arts' ?. apply Hnd. by right.
  - intros [Harts Hc]. simpl in *.
    destruct (Hnd c arts) as [?|?]; [by left|done..].
Qed.

(** C10. What the digest leaves out.  The fallback category and the
    categories without articles play no part in it: the digest is that of
    the data with those entries removed.  An article whose title is empty
    or consists of white space adds no line.  So, when every article is
    under the fallback, the digest is empty, and the summarizer answers the
    empty string without any request to the chat service. *)
Theorem digest_excludes_fallback :
  (∀ nd : news_data, digest_parts nd = digest_parts (filter in_digest nd)) ∧
  (∀ (text_parts : list pystr) (idx : nat) (a : article) (t : pystr),
     dict_get a (str "title") (PStr []) = PStr t →
     forallb is_space t = true →
     digest_title text_parts (idx, a) = ([], inr text_parts)) ∧
  (∀ nd : news_data,
     (∀ c articles, (c, articles) ∈ nd → c = FALLBACK ∨ articles = []) →
     digest_parts nd = ([], inr []) ∧
     _prepare_news_text nd = ([], inr []) ∧
     ∀ w cfg, generate_daily_summary w cfg nd = ([], inr [])).
Proof.
  split_and!.
  - apply digest_parts_filter.
  - intros parts idx a t Ht Hblank. unfold digest_title.
    by rewrite Ht, (strip_blank t Hblank).
  - intros nd Hnd.
    assert (digest_parts nd = ([], inr [])) as Hparts.
    { by rewrite digest_parts_filter, (filter_in_digest_nil nd Hnd). }
    assert (_prepare_news_text nd = ([], inr [])) as Htext.
    { unfold _prepare_news_text. by rewrite Hparts. }
    split_and!; [done..|].
    intros w cfg. unfold generate_daily_summary. by rewrite Htext.
Qed.

Lemma digest_excludes_fallback_witness :
  digest_title [] (3%nat, record "   " "u" "Asia" "") = ([], inr []) ∧
  generate_daily_summary
    (example_world (CfgObject example_config) (λ _, Some (str "A summary.")))
    no_summary_config
    [(str "科技", []); (FALLBACK, twelve_stories)] = ([], inr []).
Proof.
  destruct digest_excludes_fallback as (_ & Hblank & Hall). split.
  - apply (Hblank [] 3%nat (record "   " "u" "Asia" "") (str "   "));
      by vm_compute.
  - apply (Hall [(str "科技", []); (FALLBACK, twelve_stories)]).
    intros c articles Hin.
    apply elem_of_cons in Hin as [[= -> ->]|Hin]; [by right|].
    apply list_elem_of_singleton in Hin as [= -> ->]. by left.
Defined.

(** ** The report *)

Lemma bind_inr {A B} (m : M A) (f : A → M B) t b :
  bind m f = (t, inr b) →
  ∃ t1 a t2, m = (t1, inr a) ∧ f a = (t2, inr b) ∧ t = t1 ++ t2.
Proof.
  destruct m as [t1 [e|a]]; unfold bind; [done|].
  destruct (f a) as [t2 r] eqn:Hf. intros [= <- ->]. by exists t1, a, t2.
Qed.

Lemma bind_run {A B} (m : M A) (f : A → M B) t1 a t2 r :
  m = (t1, inr a) → f a = (t2, r) → bind m f = (t1 ++ t2, r).
Proof. intros -> Hf. unfold bind. by rewrite Hf. Qed.

Lemma fold_m_inr_inv {A S} (P : S → Prop) (body : S → A → M S) (l : list A) :
  (∀ s x t s', body s x = (t, inr s') → P s → P s') →
  ∀ s t s', fold_m body s l = (t, inr s') → P s → P s'.
Proof.
  intros Hbody. induction l as [|x l IH]; intros s t s'; simpl.
  - by intros [= _ <-].
  - intros (t1 & s1 & t2 & Hx & Hl & _)%bind_inr Hs. eauto.
Qed.

Ltac differs_from_heading :=
  let H := fresh in
  intros H; apply (f_equal (take 5)) in H; vm_compute in H; discriminate H.

Lemma article_lines_not_heading (idx : nat) (a : article) (t : list event)
    (lines : list pystr) :
  article_lines idx a = (t, inr lines) → Forall not_heading lines.
Proof.
  unfold article_lines, dict_item.
  repeat (destruct (a !! _) as [?|]; [rewrite bind_ret_l|done]).
  intros [= _ <-].
  repeat (apply Forall_cons; split; [differs_from_heading|]).
  apply Forall_app. split.
  - destruct (a !! _) as [[|[|c s]]|]; try done.
    apply Forall_singleton. differs_from_heading.
  - apply Forall_singleton. differs_from_heading.
Qed.

Lemma article_lines_ok (idx : nat) (a : article) :
  has_keys REPORT_KEYS a → ∃ lines, article_lines idx a = ([], inr lines).
Proof.
  unfold has_keys, REPORT_KEYS. rewrite !Forall_cons.
  intros ([? Ht] & [? Hu] & [? Hs] & [? Hr] & [? Hp] & _).
  unfold article_lines, dict_item.
  rewrite Ht, bind_ret_l, Hu, bind_ret_l, Hs, bind_ret_l, Hr, bind_ret_l,
    Hp, bind_ret_l. by eexists.
Qed.

Lemma section_articles_ok (items : list (nat * article)) :
  Forall (λ p, has_keys REPORT_KEYS p.2) items →
  ∀ content : list pystr,
    ∃ lines, fold_m section_article content items = ([], inr (content ++ lines)).
Proof.
  induction items as [|[idx a] items IH]; intros Hkeys content; cbn [fold_m].
  - exists []. by rewrite app_nil_r.
  - apply Forall_cons in Hkeys as [Ha Hkeys]. simpl in Ha.
    destruct (article_lines_ok idx a Ha) as [lines Hlines].
    assert (section_article content (idx, a) = ([], inr (content ++ lines)))
      as ->.
    { unfold section_article. by rewrite Hlines, bind_pure. }
    rewrite bind_pure.
    destruct (IH Hkeys (content ++ lines)) as [more ->].
    exists (lines ++ more). by rewrite app_assoc.
Qed.

Lemma enumerate_snd {A} (l : list A) start : (enumerate start l).*2 = l.
Proof. revert start. induction l; intros; simpl; [done|by rewrite IHl]. Qed.

Lemma category_section_ok (content : list pystr) (c : pystr)
    (articles : list article) :
  Forall (has_keys REPORT_KEYS) articles →
  ∃ more, category_section content (c, articles) = ([], inr (content ++ more)) ∧
          (articles ≠ [] → category_heading c ∈ more).
Proof.
  intros Hkeys. unfold category_section.
  destruct articles as [|a articles]; simpl negb; cbv iota.
  - exists []. by rewrite app_nil_r.
  - destruct (section_articles_ok (enumerate 1 (a :: articles)))
      with (content := content ++ [category_heading c;
                                   count_line (length (a :: articles))])
      as [lines Hlines].
    { apply Forall_fmap with (f := snd) (P := has_keys REPORT_KEYS).
      by rewrite enumerate_snd. }
    rewrite Hlines. eexists. rewrite <- app_assoc. split; [done|].
    intros _. by left.
Qed.

Lemma category_sections_ok (nd : news_data) :
  report_ready nd →
  ∀ content : list pystr,
    ∃ more, fold_m category_section content nd = ([], inr (content ++ more)) ∧
            ∀ c articles, (c, articles) ∈ nd → articles ≠ [] →
                          category_heading c ∈ more.
Proof.
  induction nd as [|[c arts] nd IH]; intros Hready content; cbn [fold_m].
  - exists []. rewrite app_nil_r. split; [done|]. by intros ?? ?%elem_of_nil.
  - apply Forall_cons in Hready as [Harts Hready]. simpl in Harts.
    destruct (category_section_ok content c arts Harts) as (m1 & -> & Hc).
    rewrite bind_pure.
    destruct (IH Hready (content ++ m1)) as (m2 & -> & Hnd).
    exists (m1 ++ m2). rewrite app_assoc. split; [done|].
    intros c' arts' [[= -> ->]|Hin]%elem_of_cons Hne; apply elem_of_app.
    + left. by apply Hc.
    + right. by apply (Hnd c' arts').
Qed.

Lemma category_sections_not_heading (nd : news_data) (t : list event)
    (content : list pystr) :
  category_sections nd = (t, inr content) → Forall not_heading content.
Proof.
  unfold category_sections. intros Hrun.
  apply (fold_m_inr_inv (Forall not_heading) category_section nd)
    with (s := []) (t := t); [|done|done].
  clear. intros content [c arts] t content' Hsec Hcontent.
  unfold category_section in Hsec. destruct (negb (nonempty arts)).
  { by injection Hsec as _ <-. }
  apply (fold_m_inr_inv (Forall not_heading) section_article) in Hsec; [done| |].
  - clear. intros content [idx a] t content'.
    unfold section_article.
    intros (t1 & lines & t2 & Hlines & [= _ <-] & _)%bind_inr Hcontent.
    apply Forall_app. split; [done|].
    by apply article_lines_not_heading in Hlines.
  - apply Forall_app. split; [done|].
    repeat (apply Forall_cons; split; [differs_from_heading|]). constructor.
Qed.

Lemma stats_section_not_heading (nd : news_data) :
  Forall not_heading (stats_section nd) ∧ STATS_HEADING ∈ stats_section nd.
Proof.
  unfold stats_section. split; [|by left].
  repeat (apply Forall_cons; split; [differs_from_heading|]).
  apply Forall_app. split; [|apply Forall_singleton; differs_from_heading].
  assert (∀ content, Forall not_heading content →
            Forall not_heading (foldl stats_category content nd)) as Hloop.
  { induction nd as [|[c arts] nd IH]; intros content Hcontent; simpl; [done|].
    apply IH. destruct (nonempty arts); [|done].
    apply Forall_app. split; [done|].
    apply Forall_singleton. differs_from_heading. }
  apply Hloop. constructor.
Qed.

Lemma report_foot_not_heading : Forall not_heading report_foot.
Proof.
  unfold report_foot.
  repeat (apply Forall_cons; split; [differs_from_heading|]). constructor.
Qed.

Lemma ret_inr_inv {A} (a b : A) (t : list event) :
  ret a = (t, inr b) → t = [] ∧ a = b.
Proof. by intros [= <- <-]. Qed.

Section report_facts.
Variable w : world.
Variable self : scraper.

Lemma summary_section_heading (nd : news_data) (t : list event)
    (summary : list pystr) :
  summary_section w self nd = (t, inr summary) →
  SUMMARY_HEADING ∈ summary ↔ summary_obtained w self nd.
Proof.
  unfold summary_section, summary_obtained.
  destruct (s_use_deepseek self) eqn:Huse.
  2:{ intros [= _ <-]. split; [by intros ?%elem_of_nil|].
      by intros (? & ? & ? & ? & _). }
  destruct (s_deepseek self) as [cfg|] eqn:Hds.
  2:{ intros [= _ <-]. split; [by intros ?%elem_of_nil|].
      by intros (? & ? & ? & _ & ? & _). }
  intros (t1 & s & t2 & Hgen & Hsec & _)%bind_inr.
  destruct s as [|c s]; simpl in Hsec; injection Hsec as _ <-.
  - split; [by intros ?%elem_of_nil|].
    intros (cfg' & t' & s' & _ & [= <-] & Hgen' & Hne). congruence.
  - split; [|intros _; by left]. intros _. by exists cfg, t1, (c :: s).
Qed.

Lemma report_head_not_heading : Forall not_heading (report_head w self).
Proof.
  unfold report_head.
  repeat (apply Forall_cons; split; [differs_from_heading|]). constructor.
Qed.

Lemma report_content_parts (nd : news_data) (t : list event)
    (content : list pystr) :
  report_content w self nd = (t, inr content) →
  ∃ t1 summary t2 sections,
    summary_section w self nd = (t1, inr summary) ∧
    category_sections nd = (t2, inr sections) ∧
    t = t1 ++ t2 ∧
    content = report_head w self ++ summary ++ stats_section nd ++
              sections ++ report_foot.
Proof.
  unfold report_content.
  intros (t1 & summary & t2 & Hsum & Hrest & ->)%bind_inr.
  apply bind_inr in Hrest as (t3 & sections & t4 & Hsec & Hret & ->).
  apply ret_inr_inv in Hret as [-> <-].
  exists t1, summary, t3, sections. by rewrite app_nil_r.
Qed.

Lemma report_content_heading (nd : news_data) (t : list event)
    (content : list pystr) :
  report_content w self nd = (t, inr content) →
  SUMMARY_HEADING ∈ content ↔ summary_obtained w self nd.
Proof.
  intros (t1 & summary & t2 & sections & Hsum & Hsec & _ & Hcontent)
    %report_content_parts.
  subst content. rewrite <- (summary_section_heading nd t1 summary Hsum).
  apply category_sections_not_heading in Hsec.
  destruct (stats_section_not_heading nd) as [Hstats _].
  rewrite !elem_of_app. split; [|tauto].
  assert (∀ l, Forall not_heading l → SUMMARY_HEADING ∈ l → False) as Hno.
  { intros l Hl Hin. rewrite Forall_forall in Hl. by apply (Hl _ Hin). }
  intros [Hin|[?|[Hin|[Hin|Hin]]]]; [exfalso|done|exfalso..].
  - by apply (Hno _ report_head_not_heading).
  - by apply (Hno _ Hstats).
  - by apply (Hno _ Hsec).
  - by apply (Hno _ report_foot_not_heading).
Qed.
End report_facts.

(** ** What the adapters hand over *)

Ltac has_key :=
  repeat (apply lookup_insert_is_Some'; first [left; reflexivity | right]).

Lemma newsapi_record_keys (region : pystr) (item : raw_item) (t : list event)
    (r : article) :
  newsapi_record region item = (t, inr r) → has_keys REPORT_KEYS r.
Proof.
  unfold newsapi_record.
  intros (t1 & source & t2 & _ & Hret & _)%bind_inr.
  apply ret_inr_inv in Hret as [_ <-].
  unfold has_keys, REPORT_KEYS. repeat (apply Forall_cons; split; [has_key|]).
  constructor.
Qed.

Lemma append_records_keys (region : pystr) (items : list raw_item)
    (acc acc' : list article) (t : list event) :
  append_records region acc items = (t, inr acc') →
  Forall (has_keys REPORT_KEYS) acc → Forall (has_keys REPORT_KEYS) acc'.
Proof.
  unfold append_records. apply fold_m_inr_inv. clear.
  intros acc item t acc' (t1 & r & t2 & Hr & Hret & _)%bind_inr Hacc.
  apply ret_inr_inv in Hret as [_ <-]. apply Forall_app. split; [done|].
  apply Forall_singleton. by apply newsapi_record_keys in Hr.
Qed.

Lemma emit_then {A} (ev : event) (m : M A) (t : list event) (a : A) :
  (let* _ := emit ev in m) = (t, inr a) → ∃ t', m = (t', inr a).
Proof. intros (t1 & [] & t2 & _ & Hm & _)%bind_inr. eauto. Qed.

Lemma scrape_from_newsapi_keys (w : world) (self : scraper) (t : list event)
    (l : list article) :
  scrape_from_newsapi w self = (t, inr l) → Forall (has_keys REPORT_KEYS) l.
Proof.
  unfold scrape_from_newsapi. destruct (negb (s_newsapi self)).
  { intros [_ <-]%ret_inr_inv. constructor. }
  intros (t1 & all_articles & t2 & Htop & Hsearch & _)%bind_inr.
  assert (Forall (has_keys REPORT_KEYS) all_articles) as Hall.
  { destruct (default true (nc_fetch_top_headlines _)).
    - apply (fold_m_inr_inv (Forall (has_keys REPORT_KEYS))) in Htop;
        [done| |constructor].
      intros acc country t' acc' Hin Hacc.
      apply (fold_m_inr_inv (Forall (has_keys REPORT_KEYS))) in Hin;
        [done| |done].
      intros acc0 category t0 acc0' [t3 Happ]%emit_then Hacc0.
      by apply append_records_keys in Happ.
    - apply ret_inr_inv in Htop as [_ <-]. constructor. }
  clear Htop. destruct (default true (nc_search_by_keywords _)).
  - apply (fold_m_inr_inv (Forall (has_keys REPORT_KEYS))) in Hsearch;
      [done| |done].
    intros acc [category keywords] t' acc' Hin Hacc.
    apply (fold_m_inr_inv (Forall (has_keys REPORT_KEYS))) in Hin;
      [done| |done].
    intros acc0 keyword t0 acc0' [t3 Happ]%emit_then Hacc0.
    by apply append_records_keys in Happ.
  - by apply ret_inr_inv in Hsearch as [_ <-].
Qed.

Lemma newspaper_record_keys (url : pystr) (a : parsed_article) :
  has_keys CRAWLED_KEYS (newspaper_record url a).
Proof.
  unfold has_keys, CRAWLED_KEYS, newspaper_record.
  repeat (apply Forall_cons; split; [has_key|]). constructor.
Qed.

Lemma fetch_from_source_keys (w : world) (url : pystr) (max_articles : nat)
    (t : list event) (articles : list article) :
  fetch_from_source w url max_articles = (t, inr articles) →
  Forall (has_keys CRAWLED_KEYS) articles.
Proof.
  unfold fetch_from_source. intros [t' Hrun]%emit_then.
  destruct (w_article_urls w url) as [urls|].
  - apply (fold_m_inr_inv (Forall (has_keys CRAWLED_KEYS))) in Hrun;
      [done| |constructor].
    intros acc article_url t0 acc' [t1 Hstep]%emit_then Hacc.
    destruct (w_article w article_url) as [a|];
      apply ret_inr_inv in Hstep as [_ <-]; [|done].
    apply Forall_app. split; [done|].
    apply Forall_singleton, newspaper_record_keys.
  - apply ret_inr_inv in Hrun as [_ <-]. constructor.
Qed.

Lemma region_completes_keys (region : pystr) (a : article) :
  has_keys CRAWLED_KEYS a →
  has_keys REPORT_KEYS (<[str "region" := PStr region]> a).
Proof.
  unfold has_keys, CRAWLED_KEYS, REPORT_KEYS. rewrite !Forall_cons.
  intros (Ht & Hu & Hs & Hp & _).
  split_and!; try (apply lookup_insert_is_Some'; by right).
  - apply lookup_insert_is_Some'. by left.
  - constructor.
Qed.

Lemma scrape_from_newspaper_keys (w : world) (self : scraper) (t : list event)
    (l : list article) :
  scrape_from_newspaper w self = (t, inr l) → Forall (has_keys REPORT_KEYS) l.
Proof.
  unfold scrape_from_newspaper. destruct (negb (s_newspaper self)).
  { intros [_ <-]%ret_inr_inv. constructor. }
  intros Hrun.
  apply (fold_m_inr_inv (Forall (has_keys REPORT_KEYS))) in Hrun;
    [done| |constructor].
  intros acc [region sources] t' acc' Hin Hacc.
  apply (fold_m_inr_inv (Forall (has_keys REPORT_KEYS))) in Hin; [done| |done].
  intros acc0 source_url t0 acc0'
    (t1 & articles & t2 & Hfetch & Hret & _)%bind_inr Hacc0.
  apply ret_inr_inv in Hret as [_ <-]. apply Forall_app. split; [done|].
  apply Forall_fmap. apply fetch_from_source_keys in Hfetch.
  eapply Forall_impl; [exact Hfetch|]. intros a. apply region_completes_keys.
Qed.

Lemma od_values_elem {A} (d : odict pystr (list A)) (c : pystr) (b : list A)
    (a : A) :
  (c, b) ∈ d → a ∈ b → a ∈ concat (od_values d).
Proof.
  unfold od_values. induction d as [|[c' b'] d IH]; [by intros ?%elem_of_nil|].
  simpl. rewrite elem_of_cons, elem_of_app. intros [[= -> ->]|Hin] Ha.
  - by left.
  - right. by apply IH.
Qed.

Lemma scrape_news_ready (lower : pystr → pystr) (w : world) (self : scraper)
    (t : list event) (nd : news_data) :
  scrape_news lower w self = (t, inr nd) → report_ready nd.
Proof.
  unfold scrape_news.
  intros (t1 & from_newsapi & t2 & Hapi & Hrest & _)%bind_inr.
  apply bind_inr in Hrest as (t3 & from_newspaper & t4 & Hpaper & Hcat & _).
  assert (Forall (has_keys REPORT_KEYS) from_newsapi) as Hk1.
  { destruct (s_use_newsapi self).
    - by apply scrape_from_newsapi_keys in Hapi.
    - apply ret_inr_inv in Hapi as [_ <-]. constructor. }
  assert (Forall (has_keys REPORT_KEYS) from_newspaper) as Hk2.
  { destruct (s_use_newspaper self).
    - by apply scrape_from_newspaper_keys in Hpaper.
    - apply ret_inr_inv in Hpaper as [_ <-]. constructor. }
  destruct (categorize_all_values lower (s_keywords self)
              (dedup (from_newsapi ++ from_newspaper)))
    as (result & Hrun & Hperm).
  rewrite Hrun in Hcat. injection Hcat as _ <-.
  assert (Forall (has_keys REPORT_KEYS) (concat (od_values result))) as Hall.
  { rewrite Hperm, dedup_refines.
    assert (Forall (has_keys REPORT_KEYS) (from_newsapi ++ from_newspaper))
      as Hboth by (apply Forall_app; by split).
    rewrite Forall_forall in Hboth. apply Forall_forall. intros a Ha.
    apply Hboth. eapply elem_of_sublist; [exact Ha|].
    apply keep_first_sublist. }
  rewrite Forall_forall in Hall.
  apply Forall_forall. intros [c arts] Hin. apply Forall_forall. intros a Ha.
  apply Hall. by apply (od_values_elem result c arts a).
Qed.

(** ** The summarizer and the run *)

Lemma chat_gave_nothing_summary (w : world) (cfg : summary_config)
    (nd : news_data) (prompt : pystr) :
  chat_gave_nothing w cfg nd prompt →
  generate_daily_summary w cfg nd = ([EvChat prompt], inr []).
Proof.
  intros (news_text & Htext & Hne & -> & Hchat).
  unfold generate_daily_summary. rewrite Htext, bind_pure.
  rewrite (proj2 (nonempty_true _) Hne). cbn [negb].
  destruct Hchat as [->|(content & -> & ->)]; by vm_compute.
Qed.

Lemma not_heading_not_in (l : list pystr) :
  Forall not_heading l → SUMMARY_HEADING ∉ l.
Proof. intros Hl Hin. rewrite Forall_forall in Hl. by apply (Hl _ Hin). Qed.

(** What the summarizer does catch.  The summary section is in the report
    exactly when the summarizer is on and a non-empty summary came back.
    A chat call that raises, or whose answer is empty or blank, makes the
    summarizer answer the empty string.  And when the summarizer answers
    the empty string, the run, the output being writable, completes with
    the path of the report, whose text is the head, the statistics, the
    category sections and the foot, with nothing in between. *)
Lemma chat_failure_is_not_fatal (lower : pystr → pystr) (w : world)
    (self : scraper) :
  (∀ (nd : news_data) (t : list event) (content : list pystr),
     report_content w self nd = (t, inr content) →
     (SUMMARY_HEADING ∈ content ↔ summary_obtained w self nd)) ∧
  (∀ (nd : news_data) (cfg : summary_config) (prompt : pystr),
     chat_gave_nothing w cfg nd prompt →
     generate_daily_summary w cfg nd = ([EvChat prompt], inr [])) ∧
  (∀ (nd : news_data) (t0 t1 : list event) (cfg : summary_config)
     (output_dir : pystr),
     scrape_news lower w self = (t0, inr nd) →
     s_use_deepseek self = true → s_deepseek self = Some cfg →
     generate_daily_summary w cfg nd = (t1, inr []) →
     w_writable w (path_str output_dir) = true →
     w_writable w (report_path w output_dir) = true →
     ∃ sections,
       category_sections nd = ([], inr sections) ∧
       run lower w self output_dir
       = (t0 ++ t1 ++
          [EvWrite (report_path w output_dir)
             (concat (report_head w self ++ stats_section nd ++
                      sections ++ report_foot))],
          inr (report_path w output_dir))).
Proof.
  split_and!; [apply report_content_heading| |].
  { intros nd cfg prompt. apply chat_gave_nothing_summary. }
  intros nd t0 t1 cfg output_dir Hscrape Huse Hds Hempty Hdir Hfile.
  pose proof (scrape_news_ready lower w self t0 nd Hscrape) as Hready.
  destruct (category_sections_ok nd Hready []) as (sections & Hsec & _).
  simpl in Hsec. fold (category_sections nd) in Hsec.
  assert (summary_section w self nd = (t1, inr [])) as Hsum.
  { unfold summary_section. rewrite Huse, Hds.
    by rewrite (bind_run _ _ t1 [] [] (inr []) Hempty), app_nil_r. }
  set (content := report_head w self ++ stats_section nd ++
                  sections ++ report_foot).
  assert (report_content w self nd = (t1, inr content)) as Hcontent.
  { unfold report_content.
    rewrite (bind_run _ _ t1 [] [] (inr content) Hsum);
      [by rewrite app_nil_r|].
    by rewrite Hsec, bind_pure. }
  exists sections. split; [done|].
  unfold run.
  apply (bind_run _ _ t0 nd _ _ Hscrape).
  unfold generate_markdown_report. rewrite Hdir, Hfile. cbn [negb].
  by rewrite (bind_run _ _ t1 content
                [EvWrite (report_path w output_dir) (concat content)]
                (inr (report_path w output_dir)) Hcontent).
Qed.

(** The chat call raises: the report is written, without a summary. *)
Example report_without_summary :
  let w := example_world (CfgObject example_config) (λ _, None) in
  ∃ sections,
    category_sections example_news = ([], inr sections) ∧
    run ascii_lower w example_scraper (str "./output/")
    = (example_fetches ++ [EvChat example_prompt] ++
       [EvWrite (str "output/news_daily_report_2024-05-01.md")
          (concat (report_head w example_scraper ++
                   stats_section example_news ++ sections ++ report_foot))],
       inr (str "output/news_daily_report_2024-05-01.md")).
Proof.
  intros w.
  destruct (chat_failure_is_not_fatal ascii_lower w example_scraper)
    as (_ & Hchat & Hrun).
  destruct (Hrun example_news example_fetches [EvChat example_prompt]
              no_summary_config (str "./output/"))
    as (sections & Hsec & Hdone).
  - reflexivity.
  - reflexivity.
  - reflexivity.
  - apply Hchat. exists example_digest. split_and!.
    + by vm_compute.
    + by vm_compute.
    + reflexivity.
    + by left.
  - reflexivity.
  - reflexivity.
  - exists sections. split; [exact Hsec|exact Hdone].
Qed.

(** With a summarizer that answers, the summary section is there. *)
Example report_with_summary :
  let w := example_world (CfgObject example_config)
             (λ _, Some (str " Chips dominate the day. ")) in
  ∃ content,
    report_content w example_scraper example_news
    = ([EvChat example_prompt], inr content) ∧
    take 8 content
    = report_head w example_scraper ++
      [SUMMARY_HEADING; SUMMARY_NOTE;
       str "Chips dominate the day." ++ nl ++ nl; RULE].
Proof. eexists. split; by vm_compute. Qed.

(** C6. A failure of the summarizer can stop the run.  The summarizer
    makes its digest before the [try] that guards the chat call, and the
    digest calls [.strip()] on every title.  Here NewsAPI answers an item
    whose title is [null]; the record is categorized by its description,
    so it is in the digest.  With the summarizer on and a chat service that
    would answer, [generate_daily_summary] raises [AttributeError] before
    any request; nothing catches it on the way, so the report is not
    written, [run] raises and [main] returns 1. *)
Theorem null_title_stops_the_run :
  HybridNewsScraper untitled_world (str "config.json")
  = ([], inr example_scraper) ∧
  scrape_news ascii_lower untitled_world example_scraper
  = (untitled_fetches, inr untitled_news) ∧
  generate_daily_summary untitled_world no_summary_config untitled_news
  = ([], inl AttributeError) ∧
  generate_markdown_report untitled_world example_scraper untitled_news
    (str "output")
  = ([], inl AttributeError) ∧
  run ascii_lower untitled_world example_scraper (str "output")
  = (untitled_fetches, inl AttributeError) ∧
  main ascii_lower untitled_world = (untitled_fetches, 1%nat).
Proof. split_and!; reflexivity. Qed.

(** The same data with the summarizer switched off: the report is
    written, the title shown as [None]. *)
Example null_title_without_summarizer :
  let self :=
    {| s_config := example_config; s_keywords := s_keywords example_scraper;
       s_language := str "en"; s_use_newsapi := true;
       s_newsapi_key := str "newsapi-key"; s_newsapi := true;
       s_use_newspaper := true;
       s_news_sources := s_news_sources example_scraper;
       s_max_articles := 5%nat; s_newspaper := true;
       s_use_deepseek := false; s_deepseek_api_key := [];
       s_deepseek := None |} in
  ∃ content,
    run ascii_lower untitled_world self (str "output")
    = (untitled_fetches ++
       [EvWrite (str "output/news_daily_report_2024-05-01.md") content],
       inr (str "output/news_daily_report_2024-05-01.md")).
Proof. eexists. by vm_compute. Qed.
